(** * Habitat Layout Creator: placement validation, resource aggregation,
      safety alerts and the designer's module list

    A shallow embedding of [src/scripts/modules.js] (class [HabitatModules]),
    of [ResourceCalculator.updateResources] and of the state-changing methods
    of [HabitatDesigner] ([addModule], [removeModule], [clearHabitat],
    [loadHabitat]), followed by the properties established about them.

    Numbers.  JavaScript numbers are binary64 floats.  Coordinates, sizes,
    identifiers, power, oxygen and crew figures are integer valued in this
    program and stay far below 2^53, where binary64 arithmetic on integers is
    exact; they are modelled by [Z].  The catalogue's floor areas (16.8, 22.4,
    ...) are not integers and their sums are rounded, so [area] and
    [totalArea] are modelled by the kernel's binary64 floats ([PrimFloat]).

    What is not modelled: the DOM, notifications and the clock.  Where a DOM
    helper can raise a [TypeError] that changes the control flow
    ([createModuleElement] reading [module.dimensions.width]), the raise is
    modelled. *)

From Stdlib Require Import ZArith List String Bool Lia Permutation Sorted Floats.
Import ListNotations.

Set Warnings "-inexact-float".

Open Scope string_scope.
Open Scope Z_scope.
Open Scope list_scope.

(** ** JavaScript completions *)

Module Js.

(** The faults the modelled code can raise: [TypeError] on reading a
    property of [null] or [undefined] or on calling [undefined];
    [SyntaxError] from [JSON.parse] on text that is not JSON. *)
Inductive Error : Set := TypeError | SyntaxError.

(** A call either returns a value or throws. *)
Inductive Completion (A : Type) : Type :=
| Normal (a : A)
| Throw (e : Error).
Arguments Normal {A} a.
Arguments Throw {A} e.

(** [v || 0] on a numeric property that may be missing: [undefined], [0] and
    [NaN] are falsy and give [0]; any other number is kept. *)
Definition orZero (v : option Z) : Z :=
  match v with
  | Some n => if n =? 0 then 0 else n
  | None => 0
  end.

Definition orZeroF (v : option float) : float :=
  match v with
  | Some f => if (PrimFloat.is_zero f || PrimFloat.is_nan f)%bool then 0%float else f
  | None => 0%float
  end.

End Js.

(** ** [class HabitatModules] (src/scripts/modules.js) *)

Module HabitatModules.
Import Js.

Record Dimensions : Set := { width : Z; height : Z }.

(** An entry of the static table [moduleTypes].  A numeric property that an
    entry may leave out ([powerGeneration] is present for ['power'] only) is
    an [option].  The presentation-only properties [icon], [description],
    [color] and [requirements] are left out. *)
Module Profile.
Record t : Set := {
  name : string;
  dimensions : Dimensions;
  powerConsumption : option Z;
  powerGeneration : option Z;
  oxygenProduction : option Z;
  oxygenConsumption : option Z;
  crewCapacity : option Z;
  area : option float
}.
End Profile.
Definition ModuleType : Set := Profile.t.

(** [static moduleTypes = { ... }], in the order of its keys. *)
Definition moduleTypes : list (string * ModuleType) :=
  [ ("living-quarters",
     {| Profile.name := "Living Quarters";
        Profile.dimensions := {| width := 120; height := 100 |};
        Profile.powerConsumption := Some 15;
        Profile.powerGeneration := None;
        Profile.oxygenProduction := Some 0;
        Profile.oxygenConsumption := Some 5;
        Profile.crewCapacity := Some 4;
        Profile.area := Some 12%float |});
    ("laboratory",
     {| Profile.name := "Laboratory";
        Profile.dimensions := {| width := 140; height := 120 |};
        Profile.powerConsumption := Some 25;
        Profile.powerGeneration := None;
        Profile.oxygenProduction := Some 0;
        Profile.oxygenConsumption := Some 3;
        Profile.crewCapacity := Some 2;
        Profile.area := Some 16.8%float |});
    ("greenhouse",
     {| Profile.name := "Greenhouse";
        Profile.dimensions := {| width := 160; height := 140 |};
        Profile.powerConsumption := Some 30;
        Profile.powerGeneration := None;
        Profile.oxygenProduction := Some 15;
        Profile.oxygenConsumption := Some 2;
        Profile.crewCapacity := Some 1;
        Profile.area := Some 22.4%float |});
    ("workshop",
     {| Profile.name := "Workshop";
        Profile.dimensions := {| width := 130; height := 110 |};
        Profile.powerConsumption := Some 20;
        Profile.powerGeneration := None;
        Profile.oxygenProduction := Some 0;
        Profile.oxygenConsumption := Some 4;
        Profile.crewCapacity := Some 2;
        Profile.area := Some 14.3%float |});
    ("recreation",
     {| Profile.name := "Recreation";
        Profile.dimensions := {| width := 150; height := 130 |};
        Profile.powerConsumption := Some 18;
        Profile.powerGeneration := None;
        Profile.oxygenProduction := Some 0;
        Profile.oxygenConsumption := Some 6;
        Profile.crewCapacity := Some 8;
        Profile.area := Some 19.5%float |});
    ("airlock",
     {| Profile.name := "Airlock";
        Profile.dimensions := {| width := 80; height := 80 |};
        Profile.powerConsumption := Some 10;
        Profile.powerGeneration := None;
        Profile.oxygenProduction := Some 0;
        Profile.oxygenConsumption := Some 1;
        Profile.crewCapacity := Some 2;
        Profile.area := Some 6.4%float |});
    ("power",
     {| Profile.name := "Power Module";
        Profile.dimensions := {| width := 100; height := 100 |};
        Profile.powerConsumption := Some 0;
        Profile.powerGeneration := Some 50;
        Profile.oxygenProduction := Some 0;
        Profile.oxygenConsumption := Some 0;
        Profile.crewCapacity := Some 0;
        Profile.area := Some 10%float |});
    ("storage",
     {| Profile.name := "Storage";
        Profile.dimensions := {| width := 110; height := 90 |};
        Profile.powerConsumption := Some 5;
        Profile.powerGeneration := None;
        Profile.oxygenProduction := Some 0;
        Profile.oxygenConsumption := Some 0;
        Profile.crewCapacity := Some 0;
        Profile.area := Some 9.9%float |}) ].

(** Own-property lookup [obj[key]]; [None] is [undefined].  The members every
    object inherits ([constructor], [toString], ...) are not modelled: the
    lookup is that of every other name. *)
Fixpoint property (key : string) (obj : list (string * ModuleType)) : option ModuleType :=
  match obj with
  | [] => None
  | (k, v) :: rest => if String.eqb k key then Some v else property key rest
  end.

(** [static getModuleType(moduleId)]: [this.moduleTypes[moduleId] || null].
    Every entry of the table is an object, hence truthy. *)
Definition getModuleType (moduleId : string) : option ModuleType :=
  property moduleId moduleTypes.

(** [static getAllModuleTypes()]: [Object.keys(this.moduleTypes)]. *)
Definition getAllModuleTypes : list string := map fst moduleTypes.

(** A module object of the designer's list [this.modules], as [addModule]
    builds it and as [JSON.parse] returns it on restore: the properties
    the code reads.  [m_dimensions] is the object's own [dimensions]
    property ([addModule] copies it from the profile by [...moduleInfo]; a
    restored entry has it only if the document does). *)
Record Module : Set := {
  m_id : Z;
  m_type : string;
  m_x : Z;
  m_y : Z;
  m_dimensions : option Dimensions
}.

Record Position : Set := { pos_x : Z; pos_y : Z }.

(** The object literals [{ x, y, ...dimensions }] handed to [modulesOverlap]. *)
Record Rect : Set := { r_x : Z; r_y : Z; r_width : Z; r_height : Z }.

Definition rect (x y : Z) (d : Dimensions) : Rect :=
  {| r_x := x; r_y := y; r_width := width d; r_height := height d |}.

(** The local accumulators of [calculateTotalResources]. *)
Record Totals : Set := {
  totalPowerConsumption : Z;
  totalPowerGeneration : Z;
  totalOxygenProduction : Z;
  totalOxygenConsumption : Z;
  totalCrewCapacity : Z;
  totalAreaAcc : float
}.

Definition noTotals : Totals :=
  {| totalPowerConsumption := 0; totalPowerGeneration := 0;
     totalOxygenProduction := 0; totalOxygenConsumption := 0;
     totalCrewCapacity := 0; totalAreaAcc := 0%float |}.

(** The body of the [forEach] callback of [calculateTotalResources]. *)
Definition accumulate (t : Totals) (module : Module) : Totals :=
  match getModuleType (m_type module) with
  | Some moduleType =>
      {| totalPowerConsumption :=
           totalPowerConsumption t + orZero (Profile.powerConsumption moduleType);
         totalPowerGeneration :=
           totalPowerGeneration t + orZero (Profile.powerGeneration moduleType);
         totalOxygenProduction :=
           totalOxygenProduction t + orZero (Profile.oxygenProduction moduleType);
         totalOxygenConsumption :=
           totalOxygenConsumption t + orZero (Profile.oxygenConsumption moduleType);
         totalCrewCapacity :=
           totalCrewCapacity t + orZero (Profile.crewCapacity moduleType);
         totalAreaAcc :=
           (totalAreaAcc t + orZeroF (Profile.area moduleType))%float |}
  | None => t
  end.

(** The object returned by [calculateTotalResources].  [resourceModuleTypes]
    is its property [moduleTypes], which [ResourceCalculator.updateResources]
    adds afterwards ([None] while it is absent); the name [moduleTypes] is
    taken by the static table. *)
Record Resources : Set := {
  powerBalance : Z;
  oxygenBalance : Z;
  crewCapacity : Z;
  totalArea : float;
  modules : Z;
  powerConsumption : Z;
  powerGeneration : Z;
  oxygenProduction : Z;
  oxygenConsumption : Z;
  resourceModuleTypes : option (list string)
}.

(** [static calculateTotalResources(modules)] *)
Definition calculateTotalResources (modules : list Module) : Resources :=
  let t := fold_left accumulate modules noTotals in
  {| powerBalance := totalPowerGeneration t - totalPowerConsumption t;
     oxygenBalance := totalOxygenProduction t - totalOxygenConsumption t;
     crewCapacity := totalCrewCapacity t;
     totalArea := totalAreaAcc t;
     modules := Z.of_nat (List.length modules);
     powerConsumption := totalPowerConsumption t;
     powerGeneration := totalPowerGeneration t;
     oxygenProduction := totalOxygenProduction t;
     oxygenConsumption := totalOxygenConsumption t;
     resourceModuleTypes := None |}.

(** [static modulesOverlap(module1, module2)] *)
Definition modulesOverlap (module1 module2 : Rect) : bool :=
  negb ((r_x module1 + r_width module1 <=? r_x module2)
        || (r_x module2 + r_width module2 <=? r_x module1)
        || (r_y module1 + r_height module1 <=? r_y module2)
        || (r_y module2 + r_height module2 <=? r_y module1)).

(** The result objects [{ valid: true }] and [{ valid: false, reason }]. *)
Record Validation : Set := { valid : bool; reason : option string }.

Definition invalid (why : string) : Validation :=
  {| valid := false; reason := Some why |}.

(** The [for ... of] loop of [validateModulePlacement]: the second argument
    of [modulesOverlap] reads [.dimensions] of
    [this.getModuleType(existingModule.type)], which is [null] for a type
    the table does not have. *)
Fixpoint overlapLoop (candidate : Rect) (existingModules : list Module)
  : Completion Validation :=
  match existingModules with
  | [] => Normal {| valid := true; reason := None |}
  | existingModule :: rest =>
      match getModuleType (m_type existingModule) with
      | None => Throw TypeError
      | Some existingType =>
          if modulesOverlap candidate
               (rect (m_x existingModule) (m_y existingModule)
                     (Profile.dimensions existingType))
          then Normal (invalid "Module overlaps with existing module")
          else overlapLoop candidate rest
      end
  end.

(** [static validateModulePlacement(moduleType, position, existingModules, canvasSize)] *)
Definition validateModulePlacement (moduleType : string) (position : Position)
    (existingModules : list Module) (canvasSize : Dimensions)
  : Completion Validation :=
  match getModuleType moduleType with
  | None => Normal (invalid "Invalid module type")
  | Some module =>
      if (pos_x position <? 0) || (pos_y position <? 0)
         || (canvasSize.(width) <? pos_x position + width (Profile.dimensions module))
         || (canvasSize.(height) <? pos_y position + height (Profile.dimensions module))
      then Normal (invalid "Module extends beyond habitat boundary")
      else overlapLoop
             (rect (pos_x position) (pos_y position) (Profile.dimensions module))
             existingModules
  end.

(** Alerts.  [type] is one of the three strings the code uses. *)
Inductive AlertType : Set := danger | warning | safe.

(** The message templates of [getSafetyAlerts], with the number each one
    interpolates:
    - [PowerDeficit n]: "Power deficit: n kW. Add more power modules!"
    - [LowPowerReserve n]: "Low power reserve: n kW. Consider adding backup power."
    - [OxygenDeficit n]: "Oxygen deficit: n units. Add greenhouse modules!"
    - [LowOxygenReserve n]: "Low oxygen reserve: n units. Consider adding more greenhouses."
    - [NoLivingQuarters]: "No living quarters. Crew needs places to sleep!"
    - [LimitedCrewCapacity n]: "Limited crew capacity: n people. Consider adding more living quarters."
    - [NoAirlock]: "No airlock detected. EVA operations will not be possible!"
    - [NoPowerModules]: "No power modules! The habitat needs power generation."
    - [AllSystemsNominal]: "All systems nominal" *)
Inductive Message : Set :=
| PowerDeficit (magnitude : Z)
| LowPowerReserve (balance : Z)
| OxygenDeficit (magnitude : Z)
| LowOxygenReserve (balance : Z)
| NoLivingQuarters
| LimitedCrewCapacity (capacity : Z)
| NoAirlock
| NoPowerModules
| AllSystemsNominal.

Record Alert : Set := { a_type : AlertType; a_message : Message }.

Definition push (alerts : list Alert) (ty : AlertType) (msg : Message) : list Alert :=
  alerts ++ [{| a_type := ty; a_message := msg |}].

(** [array.includes(s)] on an array of strings. *)
Definition includes (array : list string) (s : string) : bool :=
  existsb (String.eqb s) array.

(** [static getSafetyAlerts(resources)] *)
Definition getSafetyAlerts (resources : Resources) : list Alert :=
  let alerts := [] in
  let alerts :=
    if powerBalance resources <? 0
    then push alerts danger (PowerDeficit (Z.abs (powerBalance resources)))
    else if powerBalance resources <? 10
    then push alerts warning (LowPowerReserve (powerBalance resources))
    else alerts in
  let alerts :=
    if oxygenBalance resources <? 0
    then push alerts danger (OxygenDeficit (Z.abs (oxygenBalance resources)))
    else if oxygenBalance resources <? 5
    then push alerts warning (LowOxygenReserve (oxygenBalance resources))
    else alerts in
  let alerts :=
    if crewCapacity resources =? 0
    then push alerts warning NoLivingQuarters
    else if crewCapacity resources <? 4
    then push alerts warning (LimitedCrewCapacity (crewCapacity resources))
    else alerts in
  let moduleTypes :=
    match resourceModuleTypes resources with
    | Some l => l
    | None => []
    end in
  let alerts :=
    if negb (includes moduleTypes "airlock")
    then push alerts warning NoAirlock
    else alerts in
  let alerts :=
    if negb (includes moduleTypes "power")
    then push alerts danger NoPowerModules
    else alerts in
  let alerts :=
    if (List.length alerts =? 0)%nat
    then push alerts safe AllSystemsNominal
    else alerts in
  alerts.

End HabitatModules.

(** ** [ResourceCalculator.updateResources] *)

Module ResourceCalculator.
Import HabitatModules.

(** [resources.moduleTypes = modules.map(m => m.type)] *)
Definition withModuleTypes (resources : Resources) (types : list string) : Resources :=
  {| powerBalance := powerBalance resources;
     oxygenBalance := oxygenBalance resources;
     crewCapacity := crewCapacity resources;
     totalArea := totalArea resources;
     modules := modules resources;
     powerConsumption := powerConsumption resources;
     powerGeneration := powerGeneration resources;
     oxygenProduction := oxygenProduction resources;
     oxygenConsumption := oxygenConsumption resources;
     resourceModuleTypes := Some types |}.

(** [updateResources(modules)].  The method returns nothing and repaints
    the panels; its result here is what it paints from: the resources
    object it completed and the alerts [updateSafetyAlerts] renders. *)
Definition updateResources (modules : list Module) : Resources * list Alert :=
  let resources := calculateTotalResources modules in
  let resources := withModuleTypes resources (map m_type modules) in
  (resources, getSafetyAlerts resources).

End ResourceCalculator.

(** ** [class HabitatDesigner]: the module list and the id counter *)

Module HabitatDesigner.
Import Js.

(** The fields of [this] that the modelled methods read or write. *)
Record Designer : Set := {
  modules : list HabitatModules.Module;
  selectedModule : option HabitatModules.Module;
  canvasRect : HabitatModules.Dimensions;
  nextModuleId : Z
}.

(** [constructor()], with the canvas rectangle [init] measures. *)
Definition constructor (canvas : HabitatModules.Dimensions) : Designer :=
  {| modules := []; selectedModule := None; canvasRect := canvas; nextModuleId := 1 |}.

(** A method body: it runs on [this], leaves a (possibly changed) [this]
    behind, and either returns or throws.  What was written before a throw
    stays written. *)
Definition M (A : Type) : Type := Designer -> Completion A * Designer.

Definition ret {A} (a : A) : M A := fun this => (Normal a, this).

Definition throw {A} (e : Error) : M A := fun this => (Throw e, this).

Definition bind {A B} (c : M A) (k : A -> M B) : M B :=
  fun this =>
    match c this with
    | (Normal a, this') => k a this'
    | (Throw e, this') => (Throw e, this')
    end.

Definition get : M Designer := fun this => (Normal this, this).

Definition update (f : Designer -> Designer) : M unit := fun this => (Normal tt, f this).

(** A call of a static method of [HabitatModules]. *)
Definition call {A} (c : Completion A) : M A := fun this => (c, this).

(** [try { body } catch (error) { handler }] *)
Definition tryCatch {A} (body : M A) (handler : Error -> M A) : M A :=
  fun this =>
    match body this with
    | (Normal a, this') => (Normal a, this')
    | (Throw e, this') => handler e this'
    end.

Declare Scope method_scope.
Delimit Scope method_scope with method.
Notation "x <- c ;; k" := (bind c (fun x => k))
  (at level 100, c at next level, right associativity) : method_scope.
Notation "c ;; k" := (bind c (fun _ => k))
  (at level 100, right associativity) : method_scope.
Open Scope method_scope.

Definition setModules (l : list HabitatModules.Module) (this : Designer) : Designer :=
  {| modules := l; selectedModule := selectedModule this;
     canvasRect := canvasRect this; nextModuleId := nextModuleId this |}.

Definition setSelectedModule (s : option HabitatModules.Module) (this : Designer) : Designer :=
  {| modules := modules this; selectedModule := s;
     canvasRect := canvasRect this; nextModuleId := nextModuleId this |}.

Definition setNextModuleId (n : Z) (this : Designer) : Designer :=
  {| modules := modules this; selectedModule := selectedModule this;
     canvasRect := canvasRect this; nextModuleId := n |}.

(** [updateCanvasRect()]: the rectangle comes from the browser. *)
Definition updateCanvasRect (measured : HabitatModules.Dimensions) : M unit :=
  update (fun this =>
    {| modules := modules this; selectedModule := selectedModule this;
       canvasRect := measured; nextModuleId := nextModuleId this |}).

(** [createModuleElement(module)]: of the DOM work, only the read of
    [module.dimensions.width], which throws when the module object has no
    [dimensions]. *)
Definition createModuleElement (module : HabitatModules.Module) : M unit :=
  match HabitatModules.m_dimensions module with
  | Some _ => ret tt
  | None => throw TypeError
  end.

(** [addModule(moduleType, x, y)].  [width / 2] and [height / 2] are exact:
    every dimension of the table is even. *)
Definition addModule (moduleType : string) (x y : Z) : M unit :=
  match HabitatModules.getModuleType moduleType with
  | None => ret tt
  | Some moduleInfo =>
      let dimensions := HabitatModules.Profile.dimensions moduleInfo in
      let adjustedX := Z.max 0 (x - HabitatModules.width dimensions / 2) in
      let adjustedY := Z.max 0 (y - HabitatModules.height dimensions / 2) in
      this <- get ;;
      validation <- call (HabitatModules.validateModulePlacement moduleType
                      {| HabitatModules.pos_x := adjustedX; HabitatModules.pos_y := adjustedY |}
                      (modules this)
                      (canvasRect this)) ;;
      if negb (HabitatModules.valid validation) then ret tt
      else
        let module :=
          {| HabitatModules.m_id := nextModuleId this;
             HabitatModules.m_type := moduleType;
             HabitatModules.m_x := adjustedX;
             HabitatModules.m_y := adjustedY;
             HabitatModules.m_dimensions := Some dimensions |} in
        update (setNextModuleId (nextModuleId this + 1)) ;;
        update (fun this => setModules (modules this ++ [module]) this) ;;
        createModuleElement module
  end.

(** [handleCanvasDrop(e)]: nothing for an empty payload; otherwise measure
    the canvas, then [addModule] at the drop point. *)
Definition handleCanvasDrop (moduleType : string) (dropX dropY : Z)
    (measured : HabitatModules.Dimensions) : M unit :=
  if String.eqb moduleType "" then ret tt
  else (updateCanvasRect measured ;;
        addModule moduleType dropX dropY).

(** [array.findIndex(p)]; [None] is [-1]. *)
Fixpoint findIndex {A} (p : A -> bool) (array : list A) : option nat :=
  match array with
  | [] => None
  | a :: rest =>
      if p a then Some O
      else match findIndex p rest with
           | Some i => Some (S i)
           | None => None
           end
  end.

(** [array.splice(index, 1)] *)
Definition splice1 {A} (array : list A) (index : nat) : list A :=
  firstn index array ++ skipn (S index) array.

(** [removeModule(moduleId)] *)
Definition removeModule (moduleId : Z) : M unit :=
  this <- get ;;
  match findIndex (fun m => HabitatModules.m_id m =? moduleId) (modules this) with
  | None => ret tt
  | Some moduleIndex =>
      update (setModules (splice1 (modules this) moduleIndex)) ;;
      match selectedModule this with
      | Some selected =>
          if HabitatModules.m_id selected =? moduleId
          then update (setSelectedModule None)
          else ret tt
      | None => ret tt
      end
  end.

(** [clearHabitat()]; [confirmed] is the user's answer to [confirm(...)],
    asked only when there is something to clear. *)
Definition clearHabitat (confirmed : bool) : M unit :=
  this <- get ;;
  if (List.length (modules this) =? 0)%nat then ret tt
  else if confirmed
  then update (setModules []) ;; update (setSelectedModule None)
  else ret tt.

(** What [JSON.parse(savedData).modules] can be: missing (also when the
    parsed value is [null] or not an object), something that is not an
    array, or an array of module objects. *)
Inductive ModulesProperty : Set :=
| Undefined
| NotAnArray
| Array (entries : list HabitatModules.Module).

(** What [localStorage.getItem('habitat-design')] can hold. *)
Inductive SavedData : Set :=
| NoItem
| NotJson
| Json (modulesProperty : ModulesProperty).

(** The notification [loadHabitat] ends with. *)
Inductive LoadResult : Set :=
| NoSavedHabitatFound
| HabitatDesignLoaded
| ErrorLoadingHabitatDesign.

(** [JSON.parse(savedData)] followed by the read of [.modules.forEach]. *)
Definition parse (savedData : SavedData) : M ModulesProperty :=
  match savedData with
  | Json p => ret p
  | _ => throw SyntaxError
  end.

Definition entriesOf (p : ModulesProperty) : M (list HabitatModules.Module) :=
  match p with
  | Array entries => ret entries
  | _ => throw TypeError
  end.

(** [habitatData.modules.forEach(moduleData => { push; createModuleElement })] *)
Fixpoint restoreEach (entries : list HabitatModules.Module) : M unit :=
  match entries with
  | [] => ret tt
  | moduleData :: rest =>
      update (fun this => setModules (modules this ++ [moduleData]) this) ;;
      createModuleElement moduleData ;;
      restoreEach rest
  end.

(** [Math.max(...ids)] for at least one id; exact on integer ids, and so is
    the [+ 1] of [updateNextId] as long as they are safe integers. *)
Definition maxOf (first : Z) (others : list Z) : Z := fold_left Z.max others first.

(** [if (this.modules.length > 0) this.nextModuleId = Math.max(...ids) + 1] *)
Definition updateNextId : M unit :=
  this <- get ;;
  match map HabitatModules.m_id (modules this) with
  | [] => ret tt
  | first :: others => update (setNextModuleId (maxOf first others + 1))
  end.

(** [loadHabitat()] *)
Definition loadHabitat (savedData : SavedData) (confirmed : bool) : M LoadResult :=
  match savedData with
  | NoItem => ret NoSavedHabitatFound
  | _ =>
      tryCatch
        (habitatData <- parse savedData ;;
         clearHabitat confirmed ;;
         entries <- entriesOf habitatData ;;
         restoreEach entries ;;
         updateNextId ;;
         ret HabitatDesignLoaded)
        (fun _ => ret ErrorLoadingHabitatDesign)
  end.

(** The user's operations on the designer. *)
Inductive Operation : Set :=
| Add (moduleType : string) (dropX dropY : Z) (measured : HabitatModules.Dimensions)
| Remove (moduleId : Z)
| Clear (confirmed : bool)
| Restore (savedData : SavedData) (confirmed : bool).

Definition perform (op : Operation) : M unit :=
  match op with
  | Add moduleType dropX dropY measured => handleCanvasDrop moduleType dropX dropY measured
  | Remove moduleId => removeModule moduleId
  | Clear confirmed => clearHabitat confirmed
  | Restore savedData confirmed => loadHabitat savedData confirmed ;; ret tt
  end.

(** The designer after an operation, thrown or not. *)
Definition after (op : Operation) (this : Designer) : Designer := snd (perform op this).

(** The states a designer goes through under a sequence of operations,
    oldest first. *)
Fixpoint lineage (ops : list Operation) (this : Designer) : list Designer :=
  this :: match ops with
          | [] => []
          | op :: rest => lineage rest (after op this)
          end.

Definition isRestore (op : Operation) : bool :=
  match op with
  | Restore _ _ => true
  | _ => false
  end.

End HabitatDesigner.

(** ** Vocabulary of the properties *)

Module Properties.
Import Js HabitatModules.

Definition ok : Validation := {| valid := true; reason := None |}.

Definition outOfBounds : Validation := invalid "Module extends beyond habitat boundary".

(** The rectangle a candidate of profile [module] occupies at [position]. *)
Definition candidateRect (module : ModuleType) (position : Position) : Rect :=
  rect (pos_x position) (pos_y position) (Profile.dimensions module).

(** Every existing module has a rectangle (its type is in the table) and
    that rectangle does not overlap the candidate's. *)
Definition noneOverlaps (candidate : Rect) (existingModules : list Module) : Prop :=
  Forall (fun m => exists t, getModuleType (m_type m) = Some t
                     /\ modulesOverlap candidate (rect (m_x m) (m_y m) (Profile.dimensions t)) = false)
         existingModules.

(** An edge of one rectangle lies exactly on the facing edge of the other. *)
Definition touching (a b : Rect) : Prop :=
  r_x a + r_width a = r_x b \/ r_x b + r_width b = r_x a
  \/ r_y a + r_height a = r_y b \/ r_y b + r_height b = r_y a.

Definition inBounds (r : Rect) (canvasSize : Dimensions) : Prop :=
  0 <= r_x r /\ 0 <= r_y r
  /\ r_x r + r_width r <= width canvasSize /\ r_y r + r_height r <= height canvasSize.

(** The threshold and presence rules of the alert policy, in its order. *)
Inductive Rule : Set :=
| PowerDeficitRule | LowPowerRule
| OxygenDeficitRule | LowOxygenRule
| NoLivingQuartersRule | LimitedCrewRule
| NoAirlockRule | NoPowerGenerationRule.

Definition rules : list Rule :=
  [PowerDeficitRule; LowPowerRule; OxygenDeficitRule; LowOxygenRule;
   NoLivingQuartersRule; LimitedCrewRule; NoAirlockRule; NoPowerGenerationRule].

Definition presentTypeIds (resources : Resources) : list string :=
  match resourceModuleTypes resources with
  | Some l => l
  | None => []
  end.

(** When a rule applies to a snapshot. *)
Definition fires (rule : Rule) (resources : Resources) : bool :=
  match rule with
  | PowerDeficitRule => powerBalance resources <? 0
  | LowPowerRule => (0 <=? powerBalance resources) && (powerBalance resources <? 10)
  | OxygenDeficitRule => oxygenBalance resources <? 0
  | LowOxygenRule => (0 <=? oxygenBalance resources) && (oxygenBalance resources <? 5)
  | NoLivingQuartersRule => crewCapacity resources =? 0
  | LimitedCrewRule => negb (crewCapacity resources =? 0) && (crewCapacity resources <? 4)
  | NoAirlockRule => negb (includes (presentTypeIds resources) "airlock")
  | NoPowerGenerationRule => negb (includes (presentTypeIds resources) "power")
  end.

(** The alert a rule raises. *)
Definition alertOf (rule : Rule) (resources : Resources) : Alert :=
  match rule with
  | PowerDeficitRule =>
      {| a_type := danger; a_message := PowerDeficit (Z.abs (powerBalance resources)) |}
  | LowPowerRule =>
      {| a_type := warning; a_message := LowPowerReserve (powerBalance resources) |}
  | OxygenDeficitRule =>
      {| a_type := danger; a_message := OxygenDeficit (Z.abs (oxygenBalance resources)) |}
  | LowOxygenRule =>
      {| a_type := warning; a_message := LowOxygenReserve (oxygenBalance resources) |}
  | NoLivingQuartersRule => {| a_type := warning; a_message := NoLivingQuarters |}
  | LimitedCrewRule =>
      {| a_type := warning; a_message := LimitedCrewCapacity (crewCapacity resources) |}
  | NoAirlockRule => {| a_type := warning; a_message := NoAirlock |}
  | NoPowerGenerationRule => {| a_type := danger; a_message := NoPowerModules |}
  end.

(** The entry pushed when nothing else was; the code labels it ['safe']. *)
Definition nominal : Alert := {| a_type := safe; a_message := AllSystemsNominal |}.

Definition fired (resources : Resources) : list Rule :=
  filter (fun rule => fires rule resources) rules.

(** A module whose type the table has. *)
Definition known (m : Module) : bool :=
  match getModuleType (m_type m) with
  | Some _ => true
  | None => false
  end.

(** The six accumulated fields of a snapshot. *)
Definition sums (r : Resources) : Z * Z * Z * Z * Z * float :=
  (powerConsumption r, powerGeneration r, oxygenProduction r,
   oxygenConsumption r, crewCapacity r, totalArea r).

(** [whole] split into two sublists that keep its order and share no
    position. *)
Inductive Partition {A : Type} : list A -> list A -> list A -> Prop :=
| partition_nil : Partition [] [] []
| partition_left a whole sub1 sub2 :
    Partition whole sub1 sub2 -> Partition (a :: whole) (a :: sub1) sub2
| partition_right a whole sub1 sub2 :
    Partition whole sub1 sub2 -> Partition (a :: whole) sub1 (a :: sub2).

(** Additivity of the fields that are integers. *)
Definition additiveCounts (whole sub1 sub2 : Resources) : Prop :=
  powerConsumption whole = powerConsumption sub1 + powerConsumption sub2
  /\ powerGeneration whole = powerGeneration sub1 + powerGeneration sub2
  /\ oxygenProduction whole = oxygenProduction sub1 + oxygenProduction sub2
  /\ oxygenConsumption whole = oxygenConsumption sub1 + oxygenConsumption sub2
  /\ crewCapacity whole = crewCapacity sub1 + crewCapacity sub2
  /\ modules whole = modules sub1 + modules sub2.

(** Additivity of every summed field, [totalArea] included. *)
Definition additive (whole sub1 sub2 : Resources) : Prop :=
  additiveCounts whole sub1 sub2
  /\ totalArea whole = (totalArea sub1 + totalArea sub2)%float.

(** The area step of the accumulation: what one more module makes of the
    running total. *)
Definition addArea (total : float) (m : Module) : float :=
  match getModuleType (m_type m) with
  | Some moduleType => (total + orZeroF (Profile.area moduleType))%float
  | None => total
  end.

(** A module of the given type, as [addModule] or a restore leaves it. *)
Definition placed (id : Z) (type : string) (x y : Z) : Module :=
  {| m_id := id; m_type := type; m_x := x; m_y := y;
     m_dimensions := match getModuleType type with
                     | Some t => Some (Profile.dimensions t)
                     | None => None
                     end |}.

(** Unknown types add nothing to the six sums and are kept out of the
    type list the presence checks read. *)
Definition unknownTypesIgnored (modules : list Module) : Prop :=
  sums (calculateTotalResources modules)
  = sums (calculateTotalResources (filter known modules))
  /\ forall m, In m modules -> known m = false ->
       ~ In (m_type m) (presentTypeIds (fst (ResourceCalculator.updateResources modules))).

(** Sample layouts. *)
Definition livingQuartersAndTwoAirlocks : list Module :=
  [placed 1 "living-quarters" 0 0; placed 2 "airlock" 120 0; placed 3 "airlock" 200 0].

(** A module of a type the table does not have, as a saved document may
    hold it. *)
Definition medicalBay : Module :=
  {| m_id := 1; m_type := "medical-bay"; m_x := 300; m_y := 300;
     m_dimensions := Some {| width := 100; height := 100 |} |}.

End Properties.

(** ** Designer vocabulary *)

Module Lineage.
Import HabitatModules HabitatDesigner.

(** The designer after a whole sequence of operations. *)
Definition final (ops : list Operation) (start : Designer) : Designer :=
  fold_left (fun this op => after op this) ops start.

Definition ids (this : Designer) : list Z := map m_id (HabitatDesigner.modules this).

(** Every id some module held in some state of the lineage. *)
Definition everHeld (ops : list Operation) (start : Designer) : list Z :=
  flat_map ids (lineage ops start).

(** The counter at the end is above every id the lineage ever held. *)
Definition counterAboveEveryIdEverHeld (ops : list Operation) (start : Designer) : Prop :=
  Forall (fun id => id < nextModuleId (final ops start)) (everHeld ops start).

(** The counter is above every id held now. *)
Definition counterAboveCurrentIds (this : Designer) : Prop :=
  Forall (fun id => id < nextModuleId this) (ids this).

Definition withoutRestore (ops : list Operation) : bool :=
  forallb (fun op => negb (isRestore op)) ops.

(** Sample designer: a canvas of 1000 by 1000 and one power module. *)
Definition sampleCanvas : HabitatModules.Dimensions :=
  {| HabitatModules.width := 1000; HabitatModules.height := 1000 |}.

Definition onePowerModule : Designer :=
  {| HabitatDesigner.modules := [Properties.placed 1 "power" 0 0];
     selectedModule := None;
     canvasRect := sampleCanvas;
     nextModuleId := 2 |}.

(** Three power modules placed, the third removed, then the design saved
    at that point restored. *)
Definition removeThenRestore : list Operation :=
  [ Add "power" 50 50 sampleCanvas;
    Add "power" 150 50 sampleCanvas;
    Add "power" 250 50 sampleCanvas;
    Remove 3;
    Restore (Json (Array [Properties.placed 1 "power" 0 0;
                          Properties.placed 2 "power" 100 0])) true ].

End Lineage.

(** ** Saving and the auto-save restore ([saveHabitat], [HabitatApp.autoSave],
       [HabitatApp.loadAutoSave]) *)

Module Storage.
Import Js HabitatDesigner.

(** [saveHabitat()]: the item it writes under ['habitat-design'].  What
    [JSON.parse] makes of [JSON.stringify(habitatData)] is a document whose
    [modules] are objects with the properties the live ones have; the
    [timestamp] and [version] fields are never read back.  A storage quota
    failure of [localStorage.setItem] is not modelled. *)
Definition saveHabitat (this : Designer) : SavedData := Json (Array (modules this)).

(** [HabitatApp.autoSave()]: the same module list, under
    ['habitat-design-autosave']. *)
Definition autoSave (this : Designer) : SavedData := Json (Array (modules this)).

(** [HabitatApp.loadAutoSave()].  [restore] is the answer to the question
    whether to restore the auto-saved design, [confirmed] the answer to the
    question [clearHabitat] asks.  The whole body sits in a [try] whose
    [catch] only logs. *)
Definition loadAutoSave (autoSavedData : SavedData) (restore confirmed : bool) : M unit :=
  tryCatch
    (match autoSavedData with
     | NoItem => ret tt
     | _ =>
         habitatData <- parse autoSavedData ;;
         if restore
         then (clearHabitat confirmed ;;
               entries <- entriesOf habitatData ;;
               restoreEach entries ;;
               updateNextId)
         else ret tt
     end)
    (fun _ => ret tt).

End Storage.

(** ** Selection and the Delete key ([selectModule], [deselectModule],
       [handleKeyDown]) *)

Module Selection.
Import Js HabitatDesigner.

(** [deselectModule()] *)
Definition deselectModule : M unit := update (setSelectedModule None).

(** [selectModule(module)] *)
Definition selectModule (module : HabitatModules.Module) : M unit :=
  deselectModule ;;
  update (setSelectedModule (Some module)).

(** The keys [handleKeyDown] tells apart. *)
Inductive Key : Set := Delete | Escape | OtherKey.

(** [handleKeyDown(e)] *)
Definition handleKeyDown (key : Key) : M unit :=
  this <- get ;;
  match key, selectedModule this with
  | Delete, Some selected => removeModule (HabitatModules.m_id selected)
  | Delete, None => ret tt
  | Escape, _ => deselectModule
  | OtherKey, _ => ret tt
  end.

End Selection.

(** ** Dragging a placed module ([handleModuleMouseDown], [handleMouseMove],
       [handleMouseUp]) *)

Module Dragging.
Import Js HabitatDesigner.

(** [this.dragState].  Its fields are written together: either nothing is
    dragged ([isDragging: false], [module: null], zero offset) or a module
    is, with the offset of the pointer from its corner.  The module object is
    referred to by its position in [this.modules]: the handlers write to
    that very object, so the list entry moves with it.  The reference is
    good while no other handler changes the list during the drag (a stale
    one makes the handlers here do nothing).  The copy kept in
    [selectedModule] is read for its [id] only, which a drag leaves alone,
    and is not refreshed. *)
Inductive DragState : Set :=
| Released
| Dragging (index : nat) (offset_x offset_y : Z).

Definition isDragging (d : DragState) : bool :=
  match d with
  | Released => false
  | Dragging _ _ _ => true
  end.

Record Page : Set := { designer : Designer; dragState : DragState }.

(** [module.x = newX; module.y = newY] on the object at [index]. *)
Fixpoint moveModule (array : list HabitatModules.Module) (index : nat) (newX newY : Z)
  : list HabitatModules.Module :=
  match array, index with
  | [], _ => []
  | module :: rest, O =>
      {| HabitatModules.m_id := HabitatModules.m_id module;
         HabitatModules.m_type := HabitatModules.m_type module;
         HabitatModules.m_x := newX;
         HabitatModules.m_y := newY;
         HabitatModules.m_dimensions := HabitatModules.m_dimensions module |} :: rest
  | module :: rest, S index' => module :: moveModule rest index' newX newY
  end.

(** [handleModuleMouseDown(e, module)] on the element of the module at
    [index]. *)
Definition handleModuleMouseDown (button : Z) (index : nat) (clientX clientY : Z)
    (measured : HabitatModules.Dimensions) (page : Page) : Page :=
  if negb (button =? 0) then page
  else
    match nth_error (modules (designer page)) index with
    | None => page
    | Some module =>
        let this := snd (Selection.selectModule module (designer page)) in
        let this := snd (updateCanvasRect measured this) in
        {| designer := this;
           dragState := Dragging index (clientX - HabitatModules.m_x module)
                                       (clientY - HabitatModules.m_y module) |}
    end.

(** [handleMouseMove(e)]: no clamping, no validation. *)
Definition handleMouseMove (clientX clientY : Z) (page : Page) : Page :=
  match dragState page with
  | Released => page
  | Dragging index offset_x offset_y =>
      let newX := clientX - offset_x in
      let newY := clientY - offset_y in
      {| designer := setModules (moveModule (modules (designer page)) index newX newY)
                                (designer page);
         dragState := dragState page |}
  end.

(** [handleMouseUp(e)].  The result is the warning it shows, if any: the
    reason of a failed validation.  Nothing is moved back (the source notes
    that the original position would have to be stored for that).  A throw
    of the validation leaves [dragState] as it is. *)
Definition handleMouseUp (page : Page) : Completion (option string) * Page :=
  match dragState page with
  | Released => (Normal None, page)
  | Dragging index _ _ =>
      match nth_error (modules (designer page)) index with
      | None => (Normal None, page)
      | Some module =>
          match HabitatModules.validateModulePlacement
                  (HabitatModules.m_type module)
                  {| HabitatModules.pos_x := HabitatModules.m_x module;
                     HabitatModules.pos_y := HabitatModules.m_y module |}
                  (filter (fun m => negb (HabitatModules.m_id m =? HabitatModules.m_id module))
                          (modules (designer page)))
                  (canvasRect (designer page)) with
          | Throw e => (Throw e, page)
          | Normal validation =>
              (Normal (if HabitatModules.valid validation then None
                       else HabitatModules.reason validation),
               {| designer := designer page; dragState := Released |})
          end
      end
  end.

(** A whole gesture: press on the module at [index], move, release. *)
Definition drag (index : nat) (fromX fromY toX toY : Z)
    (measured : HabitatModules.Dimensions) (page : Page)
  : Completion (option string) * Page :=
  handleMouseUp
    (handleMouseMove toX toY
       (handleModuleMouseDown 0 index fromX fromY measured page)).

End Dragging.

(** ** Recommendations ([ResourceCalculator.generateRecommendations]) *)

Module Recommendations.
Import HabitatModules.

(** The [scores] object; its numbers are compared, never computed with. *)
Record Scores : Set := {
  power : float;
  oxygen : float;
  space : float;
  crew : float
}.

Inductive Kind : Set := Critical | Warning | Suggestion.

Inductive Category : Set := Power | Oxygen | Space | Crew.

Record Recommendation : Set := {
  kind : Kind;
  category : Category;
  message : string;
  priority : Z
}.

(** [this.maxSpace] *)
Definition maxSpace : float := 1000%float.

(** The pushes of [generateRecommendations], in their order. *)
Definition pushed (resources : Resources) (scores : Scores) : list Recommendation :=
  let recommendations := [] in
  let recommendations :=
    if PrimFloat.ltb (power scores) 70
    then if powerBalance resources <? 0
         then recommendations ++
              [{| kind := Critical; category := Power;
                  message := "Add more power modules to meet energy demands";
                  priority := 1 |}]
         else recommendations ++
              [{| kind := Suggestion; category := Power;
                  message := "Consider adding backup power for redundancy";
                  priority := 3 |}]
    else recommendations in
  let recommendations :=
    if PrimFloat.ltb (oxygen scores) 70
    then if oxygenBalance resources <? 0
         then recommendations ++
              [{| kind := Critical; category := Oxygen;
                  message := "Add greenhouse modules to increase oxygen production";
                  priority := 1 |}]
         else recommendations ++
              [{| kind := Suggestion; category := Oxygen;
                  message := "Consider adding more greenhouses for better air quality";
                  priority := 3 |}]
    else recommendations in
  let recommendations :=
    if PrimFloat.ltb (space scores) 50
    then if PrimFloat.ltb 0.9 (totalArea resources / maxSpace)
         then recommendations ++
              [{| kind := Warning; category := Space;
                  message := "Habitat is nearly at capacity. Consider removing non-essential modules";
                  priority := 2 |}]
         else recommendations ++
              [{| kind := Suggestion; category := Space;
                  message := "Add more modules to better utilize available space";
                  priority := 3 |}]
    else recommendations in
  let recommendations :=
    if PrimFloat.ltb (crew scores) 70
    then if crewCapacity resources =? 0
         then recommendations ++
              [{| kind := Critical; category := Crew;
                  message := "Add living quarters for crew accommodation";
                  priority := 1 |}]
         else if crewCapacity resources <? 4
         then recommendations ++
              [{| kind := Suggestion; category := Crew;
                  message := "Consider adding more living quarters for larger crew";
                  priority := 3 |}]
         else recommendations
    else recommendations in
  recommendations.

(** [recommendations.sort((a, b) => a.priority - b.priority)]: ascending by
    priority, entries of equal priority keeping their order (the sort of
    [Array.prototype.sort] is stable). *)
Fixpoint insert (r : Recommendation) (sorted : list Recommendation) : list Recommendation :=
  match sorted with
  | [] => [r]
  | s :: rest => if priority r <=? priority s then r :: s :: rest else s :: insert r rest
  end.

Definition sortByPriority (recommendations : list Recommendation) : list Recommendation :=
  fold_right insert [] recommendations.

(** [generateRecommendations(resources, scores)] *)
Definition generateRecommendations (resources : Resources) (scores : Scores)
  : list Recommendation :=
  sortByPriority (pushed resources scores).

(** The entry, if any, that [generateRecommendations] pushes for a
    category. *)
Definition part (c : Category) (resources : Resources) (scores : Scores)
  : list Recommendation :=
  match c with
  | Power =>
      if PrimFloat.ltb (power scores) 70
      then [ if powerBalance resources <? 0
             then {| kind := Critical; category := Power;
                     message := "Add more power modules to meet energy demands";
                     priority := 1 |}
             else {| kind := Suggestion; category := Power;
                     message := "Consider adding backup power for redundancy";
                     priority := 3 |} ]
      else []
  | Oxygen =>
      if PrimFloat.ltb (oxygen scores) 70
      then [ if oxygenBalance resources <? 0
             then {| kind := Critical; category := Oxygen;
                     message := "Add greenhouse modules to increase oxygen production";
                     priority := 1 |}
             else {| kind := Suggestion; category := Oxygen;
                     message := "Consider adding more greenhouses for better air quality";
                     priority := 3 |} ]
      else []
  | Space =>
      if PrimFloat.ltb (space scores) 50
      then [ if PrimFloat.ltb 0.9 (totalArea resources / maxSpace)
             then {| kind := Warning; category := Space;
                     message := "Habitat is nearly at capacity. Consider removing non-essential modules";
                     priority := 2 |}
             else {| kind := Suggestion; category := Space;
                     message := "Add more modules to better utilize available space";
                     priority := 3 |} ]
      else []
  | Crew =>
      if PrimFloat.ltb (crew scores) 70
      then if crewCapacity resources =? 0
           then [ {| kind := Critical; category := Crew;
                     message := "Add living quarters for crew accommodation";
                     priority := 1 |} ]
           else if crewCapacity resources <? 4
           then [ {| kind := Suggestion; category := Crew;
                     message := "Consider adding more living quarters for larger crew";
                     priority := 3 |} ]
           else []
      else []
  end.

(** The order the sort establishes. *)
Definition byPriority (a b : Recommendation) : Prop := priority a <= priority b.

End Recommendations.

(** ** Vocabulary of the further properties *)

Module Layout.
Import HabitatModules Properties.

(** The names every JavaScript object inherits from [Object.prototype].
    For these [this.moduleTypes[name]] is an inherited member, not
    [undefined], although the table has no such key; [property] models the
    lookup of every other name.  A statement about what happens to a type
    the table lacks is made for names outside this list. *)
Definition inheritedNames : list string :=
  [ "constructor"; "toString"; "toLocaleString"; "valueOf"; "hasOwnProperty";
    "isPrototypeOf"; "propertyIsEnumerable"; "__proto__"; "__defineGetter__";
    "__defineSetter__"; "__lookupGetter__"; "__lookupSetter__" ].

Definition plainName (s : string) : Prop := ~ In s inheritedNames.

(** Modules none of which has an inherited name as its type. *)
Definition plainTypes (modules : list Module) : Prop :=
  Forall (fun m => plainName (m_type m)) modules.

(** [Number.isSafeInteger]: the integers on which [Math.max(...ids) + 1] is
    computed exactly, as [updateNextId] computes it. *)
Definition safeInteger (n : Z) : Prop := Z.abs n <= 2 ^ 53 - 1.

(** [static getModuleInfo(moduleId)]: the same lookup as [getModuleType]. *)
Definition getModuleInfo (moduleId : string) : option ModuleType :=
  property moduleId moduleTypes.

(** The figures of a profile are whole amounts that are not negative, and
    its sides are positive and even. *)
Definition soundProfile (t : ModuleType) : Prop :=
  0 < width (Profile.dimensions t) /\ 0 < height (Profile.dimensions t)
  /\ width (Profile.dimensions t) mod 2 = 0 /\ height (Profile.dimensions t) mod 2 = 0
  /\ 0 <= Js.orZero (Profile.powerConsumption t)
  /\ 0 <= Js.orZero (Profile.powerGeneration t)
  /\ 0 <= Js.orZero (Profile.oxygenProduction t)
  /\ 0 <= Js.orZero (Profile.oxygenConsumption t)
  /\ 0 <= Js.orZero (Profile.crewCapacity t).

(** The rectangle [validateModulePlacement] gives an existing module. *)
Definition footprint (m : Module) : option Rect :=
  match getModuleType (m_type m) with
  | Some t => Some (rect (m_x m) (m_y m) (Profile.dimensions t))
  | None => None
  end.

(** Two modules of known types whose rectangles do not overlap. *)
Definition apart (a b : Module) : Prop :=
  exists ra rb, footprint a = Some ra /\ footprint b = Some rb
                /\ modulesOverlap ra rb = false.

(** A module as [addModule] builds it: known type, own [dimensions] those of
    the profile, and not left or above the origin. *)
Definition asBuilt (m : Module) : Prop :=
  exists t, getModuleType (m_type m) = Some t
            /\ m_dimensions m = Some (Profile.dimensions t)
            /\ 0 <= m_x m /\ 0 <= m_y m.

(** A layout in which no two modules overlap. *)
Definition pairwiseApart (modules : list Module) : Prop := ForallOrdPairs apart modules.

(** Some existing module of known type overlaps the candidate. *)
Definition overlapsSome (candidate : Rect) (existingModules : list Module) : bool :=
  existsb (fun m => match footprint m with
                    | Some r => modulesOverlap candidate r
                    | None => false
                    end) existingModules.

Definition overlapping : Validation := invalid "Module overlaps with existing module".

Definition unknownType : Validation := invalid "Invalid module type".

Definition hasDimensions (m : Module) : bool :=
  match m_dimensions m with
  | Some _ => true
  | None => false
  end.

(** The alerts about one resource. *)
Definition aboutPower (a : Alert) : bool :=
  match a_message a with
  | PowerDeficit _ | LowPowerReserve _ => true
  | _ => false
  end.

Definition aboutOxygen (a : Alert) : bool :=
  match a_message a with
  | OxygenDeficit _ | LowOxygenReserve _ => true
  | _ => false
  end.

Definition aboutCrew (a : Alert) : bool :=
  match a_message a with
  | NoLivingQuarters | LimitedCrewCapacity _ => true
  | _ => false
  end.

(** The integer fields of a snapshot, balances included. *)
Definition counts (r : Resources) : Z * Z * Z * Z * Z * Z * Z * Z :=
  (powerBalance r, oxygenBalance r, crewCapacity r, modules r,
   powerConsumption r, powerGeneration r, oxygenProduction r, oxygenConsumption r).

End Layout.

Module Built.
Import HabitatModules HabitatDesigner Lineage Layout.

(** The properties a layout has as long as it is only built by drops,
    removals and clears. *)
Definition builtLayout (this : Designer) : Prop :=
  counterAboveCurrentIds this
  /\ NoDup (ids this)
  /\ Forall asBuilt (HabitatDesigner.modules this)
  /\ pairwiseApart (HabitatDesigner.modules this).

End Built.

(** * Properties *)

Import Js HabitatModules Properties.

(** ** Placement validation *)

Section Validator.

Lemma getModuleType_known m :
  known m = true -> exists t, getModuleType (m_type m) = Some t.
Proof.
  unfold known. destruct (getModuleType (m_type m)) as [t|]; [eauto | discriminate].
Qed.

(** Over existing modules that all have a rectangle and stay clear of the
    candidate, the overlap loop runs to its end. *)
Lemma overlapLoop_clear candidate existingModules :
  noneOverlaps candidate existingModules ->
  overlapLoop candidate existingModules = Normal ok.
Proof.
  induction 1 as [|m rest [t [Ht Hov]] _ IH]; simpl.
  - reflexivity.
  - rewrite Ht, Hov. exact IH.
Qed.

(** With every existing type in the table the loop returns a result. *)
Lemma overlapLoop_returns candidate existingModules :
  forallb known existingModules = true ->
  exists v, overlapLoop candidate existingModules = Normal v.
Proof.
  induction existingModules as [|m rest IH]; simpl; intros H.
  - eauto.
  - apply andb_true_iff in H as [Hm Hrest].
    destruct (getModuleType_known m Hm) as [t ->].
    destruct (modulesOverlap _ _); eauto.
Qed.

(** The bounds test of [validateModulePlacement] passes inside the canvas. *)
Lemma bounds_test_inside module position canvasSize :
  inBounds (candidateRect module position) canvasSize ->
  (pos_x position <? 0) || (pos_y position <? 0)
  || (width canvasSize <? pos_x position + width (Profile.dimensions module))
  || (height canvasSize <? pos_y position + height (Profile.dimensions module)) = false.
Proof.
  unfold inBounds, candidateRect, rect; simpl. intros (Hx & Hy & Hw & Hh).
  repeat rewrite orb_false_iff. repeat split; apply Z.ltb_ge; lia.
Qed.

Lemma validate_inside moduleType module position existingModules canvasSize :
  getModuleType moduleType = Some module ->
  inBounds (candidateRect module position) canvasSize ->
  validateModulePlacement moduleType position existingModules canvasSize
  = overlapLoop (candidateRect module position) existingModules.
Proof.
  intros Ht Hin. unfold validateModulePlacement. rewrite Ht.
  rewrite (bounds_test_inside _ _ _ Hin). reflexivity.
Qed.

Lemma validate_outside moduleType module position existingModules canvasSize :
  getModuleType moduleType = Some module ->
  (width canvasSize < pos_x position + width (Profile.dimensions module)
   \/ height canvasSize < pos_y position + height (Profile.dimensions module)) ->
  validateModulePlacement moduleType position existingModules canvasSize
  = Normal outOfBounds.
Proof.
  intros Ht Hout. unfold validateModulePlacement. rewrite Ht.
  assert ((width canvasSize <? pos_x position + width (Profile.dimensions module)) = true
          \/ (height canvasSize <? pos_y position + height (Profile.dimensions module)) = true)
    as [H|H] by (destruct Hout; [left | right]; apply Z.ltb_lt; assumption);
    rewrite H; repeat rewrite orb_true_r; reflexivity.
Qed.

(** C1 (evaluation at the failing input).  The claim is that
    [validateModulePlacement] returns a result object for every input, also
    when an existing module has a type the table lacks.  On a known
    candidate inside the canvas and one existing module of the unlisted type
    ["medical-bay"], the call throws a [TypeError] instead: the loop reads
    [.dimensions] of the [null] that [getModuleType] returned.  A restore
    puts such a module into the designer's list, and the next drop then
    throws out of [addModule]. *)
Theorem validateModulePlacement_throws_on_unlisted_existing_type :
  getModuleType "medical-bay" = None
  /\ validateModulePlacement "power" {| pos_x := 0; pos_y := 0 |}
       [medicalBay] {| width := 1000; height := 1000 |}
     = Throw TypeError
  /\ HabitatDesigner.loadHabitat
       (HabitatDesigner.Json (HabitatDesigner.Array [medicalBay])) true
       (HabitatDesigner.constructor Lineage.sampleCanvas)
     = (Normal HabitatDesigner.HabitatDesignLoaded,
        {| HabitatDesigner.modules := [medicalBay];
           HabitatDesigner.selectedModule := None;
           HabitatDesigner.canvasRect := Lineage.sampleCanvas;
           HabitatDesigner.nextModuleId := 2 |})
  /\ fst (HabitatDesigner.handleCanvasDrop "power" 50 50 Lineage.sampleCanvas
            {| HabitatDesigner.modules := [medicalBay];
               HabitatDesigner.selectedModule := None;
               HabitatDesigner.canvasRect := Lineage.sampleCanvas;
               HabitatDesigner.nextModuleId := 2 |})
     = Throw TypeError.
Proof. repeat split; reflexivity. Qed.

(** Bounds exactness over existing modules of known types.  For a known
    type at a position with [x >= 0], [y >= 0], when every existing module
    has a type of the table and a rectangle clear of the candidate's: flush
    with the right edge ([x + width = canvas width], [y] inside) or with the
    bottom edge the placement is valid; one unit past either edge it is
    rejected with the out-of-bounds reason. *)
Theorem flush_with_edge_valid_one_past_invalid
    moduleType module position existingModules canvasSize :
  getModuleType moduleType = Some module ->
  0 <= pos_x position ->
  0 <= pos_y position ->
  noneOverlaps (candidateRect module position) existingModules ->
  let right := pos_x position + width (Profile.dimensions module) in
  let bottom := pos_y position + height (Profile.dimensions module) in
  let result := validateModulePlacement moduleType position existingModules canvasSize in
  (right = width canvasSize -> bottom <= height canvasSize -> result = Normal ok)
  /\ (bottom = height canvasSize -> right <= width canvasSize -> result = Normal ok)
  /\ (right = width canvasSize + 1 -> result = Normal outOfBounds)
  /\ (bottom = height canvasSize + 1 -> result = Normal outOfBounds).
Proof.
  intros Ht Hx Hy Hclear right bottom result. subst right bottom result.
  repeat split; intros.
  - rewrite (validate_inside _ module) by
      (try assumption; unfold inBounds, candidateRect, rect; simpl; lia).
    apply overlapLoop_clear; assumption.
  - rewrite (validate_inside _ module) by
      (try assumption; unfold inBounds, candidateRect, rect; simpl; lia).
    apply overlapLoop_clear; assumption.
  - apply (validate_outside _ module); [assumption | lia].
  - apply (validate_outside _ module); [assumption | lia].
Qed.

Lemma flush_with_edge_valid_one_past_invalid_witness :
  validateModulePlacement "power" {| pos_x := 900; pos_y := 0 |} []
    {| width := 1000; height := 1000 |} = Normal ok
  /\ validateModulePlacement "power" {| pos_x := 901; pos_y := 0 |} []
       {| width := 1000; height := 1000 |} = Normal outOfBounds.
Proof.
  split.
  - refine (proj1 (flush_with_edge_valid_one_past_invalid "power" _
             {| pos_x := 900; pos_y := 0 |} [] {| width := 1000; height := 1000 |}
             eq_refl _ _ _) _ _);
      [ simpl; lia | simpl; lia | constructor | reflexivity | simpl; lia ].
  - refine (proj1 (proj2 (proj2 (flush_with_edge_valid_one_past_invalid "power" _
             {| pos_x := 901; pos_y := 0 |} [] {| width := 1000; height := 1000 |}
             eq_refl _ _ _))) _);
      [ simpl; lia | simpl; lia | constructor | reflexivity ].
Defined.

(** C5 (evaluation at the failing input).  The claim is that a known type
    at [x >= 0], [y >= 0], flush with the surface edge and overlapped by no
    existing module, validates as valid.  On a canvas 1000 wide a power
    module (100 by 100) at (900, 0) is flush with the right edge, and the one
    existing module, of the unlisted type ["medical-bay"] with its own
    100 by 100 [dimensions] at (300, 300), is nowhere near it; the call
    throws a [TypeError] instead of returning [{ valid: true }].  It is the
    missing guard of the overlap loop again, as in C1.  One unit further
    right the out-of-bounds failure is returned, as the claim says. *)
Theorem flush_placement_throws_beside_unlisted_type :
  (exists module,
     getModuleType "power" = Some module
     /\ 900 + width (Profile.dimensions module) = 1000
     /\ 0 + height (Profile.dimensions module) <= 1000
     /\ modulesOverlap (candidateRect module {| pos_x := 900; pos_y := 0 |})
                       {| r_x := m_x medicalBay; r_y := m_y medicalBay;
                          r_width := 100; r_height := 100 |} = false)
  /\ m_dimensions medicalBay = Some {| width := 100; height := 100 |}
  /\ getModuleType (m_type medicalBay) = None
  /\ validateModulePlacement "power" {| pos_x := 900; pos_y := 0 |} [medicalBay]
       {| width := 1000; height := 1000 |}
     = Throw TypeError
  /\ validateModulePlacement "power" {| pos_x := 901; pos_y := 0 |} [medicalBay]
       {| width := 1000; height := 1000 |}
     = Normal outOfBounds.
Proof.
  split; [| repeat split; reflexivity].
  eexists. split; [reflexivity |]. repeat split; simpl; lia.
Qed.

Lemma touching_no_overlap a b : touching a b -> modulesOverlap a b = false.
Proof.
  unfold touching, modulesOverlap. intros H. apply negb_false_iff.
  repeat rewrite orb_true_iff.
  destruct H as [H | [H | [H | H]]];
    [ left; left; left | left; left; right | left; right | right ];
    apply Z.leb_le; lia.
Qed.

(** C6.  Two rectangles with an edge of one exactly on the facing edge of
    the other (right on left, or bottom on top, either way round) do not
    overlap; hence a candidate inside the canvas that touches the one
    existing module in this way is validated. *)
Theorem touching_edges_are_not_overlap :
  (forall a b, touching a b -> modulesOverlap a b = false)
  /\ (forall moduleType module position existing existingType canvasSize,
        getModuleType moduleType = Some module ->
        getModuleType (m_type existing) = Some existingType ->
        inBounds (candidateRect module position) canvasSize ->
        touching (candidateRect module position)
                 (rect (m_x existing) (m_y existing) (Profile.dimensions existingType)) ->
        validateModulePlacement moduleType position [existing] canvasSize = Normal ok).
Proof.
  split.
  - exact touching_no_overlap.
  - intros moduleType module position existing existingType canvasSize Ht He Hin Htouch.
    rewrite (validate_inside _ module) by assumption.
    apply overlapLoop_clear. constructor; [|constructor].
    exists existingType. split; [assumption | apply touching_no_overlap; assumption].
Qed.

Lemma touching_edges_are_not_overlap_witness :
  modulesOverlap {| r_x := 0; r_y := 0; r_width := 100; r_height := 100 |}
                 {| r_x := 100; r_y := 0; r_width := 120; r_height := 100 |} = false
  /\ validateModulePlacement "living-quarters" {| pos_x := 100; pos_y := 0 |}
       [placed 1 "power" 0 0] {| width := 1000; height := 1000 |} = Normal ok.
Proof.
  split.
  - apply (proj1 touching_edges_are_not_overlap). left. reflexivity.
  - refine (proj2 touching_edges_are_not_overlap "living-quarters" _
              {| pos_x := 100; pos_y := 0 |} (placed 1 "power" 0 0) _
              {| width := 1000; height := 1000 |} eq_refl eq_refl _ _).
    + unfold inBounds; simpl; lia.
    + right; left. reflexivity.
Defined.

End Validator.

(** ** Safety alerts *)

Section Alerts.
Import ResourceCalculator.

(** The code's chain of [if]s raises exactly the alerts of the rules that
    fire, in the order of the policy, and the nominal entry when none does. *)
Lemma getSafetyAlerts_by_rules resources :
  getSafetyAlerts resources
  = match fired resources with
    | [] => [nominal]
    | _ :: _ => map (fun rule => alertOf rule resources) (fired resources)
    end.
Proof.
  unfold getSafetyAlerts, fired, rules, fires, presentTypeIds, push, nominal.
  cbn [filter].
  destruct (powerBalance resources <? 0) eqn:P0;
    [ assert ((0 <=? powerBalance resources) = false) as ->
        by (apply Z.leb_gt; apply Z.ltb_lt; assumption)
    | assert ((0 <=? powerBalance resources) = true) as ->
        by (apply Z.leb_le; apply Z.ltb_ge; assumption) ];
    (destruct (oxygenBalance resources <? 0) eqn:O0;
     [ assert ((0 <=? oxygenBalance resources) = false) as ->
         by (apply Z.leb_gt; apply Z.ltb_lt; assumption)
     | assert ((0 <=? oxygenBalance resources) = true) as ->
         by (apply Z.leb_le; apply Z.ltb_ge; assumption) ]);
    destruct (powerBalance resources <? 10);
    destruct (oxygenBalance resources <? 5);
    destruct (crewCapacity resources =? 0);
    destruct (crewCapacity resources <? 4);
    destruct (includes _ "airlock");
    destruct (includes _ "power");
    reflexivity.
Qed.

Lemma fired_spec rule resources :
  In rule (fired resources) <-> fires rule resources = true.
Proof.
  unfold fired. rewrite filter_In. split.
  - intros [_ H]; exact H.
  - intros H; split; [| exact H].
    destruct rule; simpl; tauto.
Qed.

Lemma alertOf_not_nominal rule resources :
  a_message (alertOf rule resources) <> AllSystemsNominal.
Proof. destruct rule; discriminate. Qed.

(** C7.  With no module placed every total is zero, and the alerts drawn
    from that snapshot hold the danger alert for missing power generation,
    the warning for the missing airlock and the warning for missing living
    quarters, and no entry saying that all systems are nominal. *)
Theorem empty_habitat_alerts :
  let resources := fst (updateResources []) in
  let alerts := snd (updateResources []) in
  (powerBalance resources = 0 /\ oxygenBalance resources = 0
   /\ crewCapacity resources = 0 /\ HabitatModules.modules resources = 0)
  /\ In {| a_type := danger; a_message := NoPowerModules |} alerts
  /\ In {| a_type := warning; a_message := NoAirlock |} alerts
  /\ In {| a_type := warning; a_message := NoLivingQuarters |} alerts
  /\ (forall a, In a alerts -> a_message a <> AllSystemsNominal).
Proof.
  cbv zeta. split; [repeat split |].
  change (snd (updateResources []))
    with [ {| a_type := warning; a_message := LowPowerReserve 0 |};
           {| a_type := warning; a_message := LowOxygenReserve 0 |};
           {| a_type := warning; a_message := NoLivingQuarters |};
           {| a_type := warning; a_message := NoAirlock |};
           {| a_type := danger; a_message := NoPowerModules |} ].
  repeat split; try (simpl; tauto).
  intros a Ha. simpl in Ha.
  repeat (destruct Ha as [<- | Ha]; [discriminate |]). destruct Ha.
Qed.

(** C9.  For every snapshot the alert list is not empty; it is the single
    nominal entry exactly when no threshold or presence rule fires; and when
    some rule fires, the alert of every rule that fires is in the list (one
    category does not silence another) and no nominal entry is. *)
Theorem alerts_complete_and_nominal_only_when_quiet resources :
  getSafetyAlerts resources <> []
  /\ (getSafetyAlerts resources = [nominal]
      <-> forall rule, fires rule resources = false)
  /\ (forall rule, fires rule resources = true ->
        In (alertOf rule resources) (getSafetyAlerts resources))
  /\ ((exists rule, fires rule resources = true) ->
        forall a, In a (getSafetyAlerts resources) -> a_message a <> AllSystemsNominal).
Proof.
  rewrite getSafetyAlerts_by_rules.
  destruct (fired resources) as [|r0 rest] eqn:F.
  - assert (forall rule, fires rule resources = false) as Quiet.
    { intros rule. destruct (fires rule resources) eqn:E; [| reflexivity].
      apply fired_spec in E. rewrite F in E. destruct E. }
    repeat split.
    + discriminate.
    + intros _; exact Quiet.
    + intros rule E. rewrite Quiet in E. discriminate.
    + intros [rule E]. rewrite Quiet in E. discriminate.
  - assert (fires r0 resources = true) as E0
      by (apply fired_spec; rewrite F; left; reflexivity).
    repeat split.
    + discriminate.
    + intros H. exfalso. simpl in H. injection H as H _.
      apply (alertOf_not_nominal r0 resources). rewrite H. reflexivity.
    + intros H. rewrite H in E0. discriminate.
    + intros rule E. apply in_map_iff. exists rule. split; [reflexivity |].
      rewrite <- F. apply fired_spec. exact E.
    + intros _ a Ha. apply in_map_iff in Ha as [rule [<- _]].
      apply alertOf_not_nominal.
Qed.

End Alerts.

(** ** Resource aggregation *)

Section Aggregation.
Import ResourceCalculator.

Lemma accumulate_unknown t m : known m = false -> accumulate t m = t.
Proof.
  unfold known, accumulate. destruct (getModuleType (m_type m)); [discriminate | reflexivity].
Qed.

(** The pass skips the modules whose type the table lacks. *)
Lemma fold_accumulate_known modules : forall t,
  fold_left accumulate modules t = fold_left accumulate (filter known modules) t.
Proof.
  induction modules as [|m rest IH]; intros t; simpl.
  - reflexivity.
  - destruct (known m) eqn:K; simpl.
    + apply IH.
    + rewrite (accumulate_unknown _ _ K). apply IH.
Qed.

Lemma sums_known modules :
  sums (calculateTotalResources modules)
  = sums (calculateTotalResources (filter known modules)).
Proof.
  unfold sums, calculateTotalResources; simpl.
  rewrite <- fold_accumulate_known. reflexivity.
Qed.

(** A type of the table is in the list of types as soon as it is in the
    list of the known ones. *)
Lemma includes_known modules s :
  getModuleType s <> None ->
  includes (map m_type (filter known modules)) s = includes (map m_type modules) s.
Proof.
  intros Hs. unfold includes.
  induction modules as [|m rest IH]; simpl.
  - reflexivity.
  - destruct (known m) eqn:K; simpl.
    + rewrite IH. reflexivity.
    + rewrite IH. destruct (String.eqb s (m_type m)) eqn:E; [| reflexivity].
      apply String.eqb_eq in E. subst s. exfalso. apply Hs.
      unfold known in K. destruct (getModuleType (m_type m)); [discriminate | reflexivity].
Qed.

(** The alerts read the type list through its two presence tests only. *)
Lemma getSafetyAlerts_presence resources types types' :
  includes types "airlock" = includes types' "airlock" ->
  includes types "power" = includes types' "power" ->
  getSafetyAlerts (withModuleTypes resources types)
  = getSafetyAlerts (withModuleTypes resources types').
Proof.
  intros Ha Hp. unfold getSafetyAlerts, withModuleTypes; simpl.
  rewrite Ha, Hp. reflexivity.
Qed.

(** C2 (as stated) fails: the type list of the snapshot is the plain
    [modules.map(m => m.type)], so the unlisted type of a restored module
    is in it. *)
Lemma unknown_type_is_listed : ~ unknownTypesIgnored [medicalBay].
Proof.
  intros [_ H]. apply (H medicalBay).
  - left; reflexivity.
  - reflexivity.
  - left; reflexivity.
Qed.

(** C2 (amended).  The single pass adds nothing to the six sums for a
    module whose type the table lacks; the snapshot's type list holds the
    type of every module, unlisted ones included, in order; and the alerts
    are the ones an exclusion of the unlisted types would give, since the
    presence checks ask for ['airlock'] and ['power'] only. *)
Theorem unknown_types_add_nothing_and_do_not_change_alerts modules :
  let resources := fst (updateResources modules) in
  sums resources = sums (fst (updateResources (filter known modules)))
  /\ resourceModuleTypes resources = Some (map m_type modules)
  /\ snd (updateResources modules)
     = getSafetyAlerts
         (withModuleTypes resources (map m_type (filter known modules))).
Proof.
  cbv zeta. split; [| split].
  - apply sums_known.
  - reflexivity.
  - unfold updateResources; cbn [fst snd].
    transitivity (getSafetyAlerts
                    (withModuleTypes (calculateTotalResources modules) (map m_type modules))).
    + reflexivity.
    + change (withModuleTypes
                (withModuleTypes (calculateTotalResources modules) (map m_type modules))
                (map m_type (filter known modules)))
        with (withModuleTypes (calculateTotalResources modules)
                (map m_type (filter known modules))).
      apply getSafetyAlerts_presence; symmetry; apply includes_known; discriminate.
Qed.

(** Each integer total after a pass is the total before plus the total of
    a pass from zero. *)
Lemma fold_accumulate_counts modules : forall t,
  let r := fold_left accumulate modules t in
  let r0 := fold_left accumulate modules noTotals in
  totalPowerConsumption r = totalPowerConsumption t + totalPowerConsumption r0
  /\ totalPowerGeneration r = totalPowerGeneration t + totalPowerGeneration r0
  /\ totalOxygenProduction r = totalOxygenProduction t + totalOxygenProduction r0
  /\ totalOxygenConsumption r = totalOxygenConsumption t + totalOxygenConsumption r0
  /\ totalCrewCapacity r = totalCrewCapacity t + totalCrewCapacity r0.
Proof.
  induction modules as [|m rest IH]; intros t; cbv zeta; simpl.
  - repeat split; lia.
  - destruct (IH (accumulate t m)) as (A1 & A2 & A3 & A4 & A5).
    destruct (IH (accumulate noTotals m)) as (B1 & B2 & B3 & B4 & B5).
    rewrite A1, A2, A3, A4, A5, B1, B2, B3, B4, B5.
    unfold accumulate. destruct (getModuleType (m_type m)); simpl; repeat split; lia.
Qed.

Lemma calculate_cons m rest :
  additiveCounts (calculateTotalResources (m :: rest))
                 (calculateTotalResources [m]) (calculateTotalResources rest).
Proof.
  unfold additiveCounts, calculateTotalResources.
  cbn [powerConsumption powerGeneration oxygenProduction oxygenConsumption
       crewCapacity HabitatModules.modules fold_left].
  destruct (fold_accumulate_counts rest (accumulate noTotals m)) as (A1 & A2 & A3 & A4 & A5).
  rewrite A1, A2, A3, A4, A5. cbn [List.length]. repeat split; lia.
Qed.

Lemma additiveCounts_partition whole sub1 sub2 :
  Partition whole sub1 sub2 ->
  additiveCounts (calculateTotalResources whole)
                 (calculateTotalResources sub1) (calculateTotalResources sub2).
Proof.
  induction 1 as [| a whole sub1 sub2 _ IH | a whole sub1 sub2 _ IH].
  - unfold additiveCounts; simpl; repeat split; reflexivity.
  - pose proof (calculate_cons a whole) as W. pose proof (calculate_cons a sub1) as S1.
    unfold additiveCounts in *. intuition lia.
  - pose proof (calculate_cons a whole) as W. pose proof (calculate_cons a sub2) as S2.
    unfold additiveCounts in *. intuition lia.
Qed.

(** The area total is the left-to-right accumulation of [addArea]. *)
Lemma totalArea_fold modules : forall t,
  totalAreaAcc (fold_left accumulate modules t)
  = fold_left addArea modules (totalAreaAcc t).
Proof.
  induction modules as [|m rest IH]; intros t; simpl.
  - reflexivity.
  - rewrite IH. f_equal.
    unfold accumulate, addArea. destruct (getModuleType (m_type m)); reflexivity.
Qed.

Lemma partition_app {A} (sub1 sub2 : list A) : Partition (sub1 ++ sub2) sub1 sub2.
Proof.
  induction sub1 as [|a sub1 IH]; simpl.
  - induction sub2 as [|b sub2 IH2]; constructor; assumption.
  - constructor; assumption.
Qed.

(** C8 (as stated) fails on [totalArea]: binary64 addition rounds, and
    (12 + 6.4) + 6.4 is not 12 + (6.4 + 6.4). *)
Lemma total_area_not_additive :
  Partition livingQuartersAndTwoAirlocks
    [placed 1 "living-quarters" 0 0] [placed 2 "airlock" 120 0; placed 3 "airlock" 200 0]
  /\ ~ additive (calculateTotalResources livingQuartersAndTwoAirlocks)
         (calculateTotalResources [placed 1 "living-quarters" 0 0])
         (calculateTotalResources [placed 2 "airlock" 120 0; placed 3 "airlock" 200 0]).
Proof.
  split.
  - apply (partition_app [_] [_; _]).
  - intros [_ H].
    pose proof (f_equal
      (fun v => PrimFloat.eqb v
                  (totalArea (calculateTotalResources livingQuartersAndTwoAirlocks))) H) as E.
    vm_compute in E. discriminate E.
Qed.

(** C8 (amended).  For every partition of a module list into two sublists,
    power consumption, power generation, oxygen production, oxygen
    consumption, crew capacity and module count of the whole are the sums
    of those of the parts.  The area total is accumulated left to right in
    binary64: over a list cut into a front and a back part it is the back
    part's areas added one by one onto the front part's total. *)
Theorem aggregate_additive_on_counts :
  (forall whole sub1 sub2,
     Partition whole sub1 sub2 ->
     additiveCounts (calculateTotalResources whole)
                    (calculateTotalResources sub1) (calculateTotalResources sub2))
  /\ (forall sub1 sub2,
        totalArea (calculateTotalResources (sub1 ++ sub2))
        = fold_left addArea sub2 (totalArea (calculateTotalResources sub1))).
Proof.
  split.
  - exact additiveCounts_partition.
  - intros sub1 sub2. unfold calculateTotalResources; cbn [totalArea].
    rewrite fold_left_app. apply totalArea_fold.
Qed.

Lemma aggregate_additive_on_counts_witness :
  additiveCounts (calculateTotalResources livingQuartersAndTwoAirlocks)
    (calculateTotalResources [placed 1 "living-quarters" 0 0])
    (calculateTotalResources [placed 2 "airlock" 120 0; placed 3 "airlock" 200 0]).
Proof.
  apply (proj1 aggregate_additive_on_counts).
  apply (partition_app [_] [_; _]).
Defined.

End Aggregation.

(** ** The designer's module list *)

Section Designer.
Import HabitatDesigner Lineage.

Lemma findIndex_none {A} (p : A -> bool) (array : list A) :
  findIndex p array = None -> forall a, In a array -> p a = false.
Proof.
  induction array as [|b rest IH]; simpl; intros H a Ha.
  - destruct Ha.
  - destruct (p b) eqn:Pb; [discriminate |].
    destruct (findIndex p rest); [discriminate |].
    destruct Ha as [<- | Ha]; [assumption | apply IH; trivial].
Qed.

(** [findIndex] finds the first match, and [splice1] there removes it and
    nothing else. *)
Lemma findIndex_some {A} (p : A -> bool) (array : list A) : forall index,
  findIndex p array = Some index ->
  exists front a back,
    array = front ++ a :: back /\ p a = true
    /\ (forall b, In b front -> p b = false)
    /\ splice1 array index = front ++ back.
Proof.
  induction array as [|b rest IH]; simpl; intros index H.
  - discriminate.
  - destruct (p b) eqn:Pb.
    + injection H as <-. exists [], b, rest. repeat split; trivial.
      intros ? [].
    + destruct (findIndex p rest) as [j|] eqn:F; [| discriminate].
      injection H as <-.
      destruct (IH j eq_refl) as (front & a & back & -> & Pa & Hfront & Hsplice).
      exists (b :: front), a, back. repeat split; trivial.
      * intros c [<- | Hc]; [assumption | apply Hfront; assumption].
      * unfold splice1 in *. simpl. f_equal. exact Hsplice.
Qed.

(** What [removeModule] does to the fields, by the index it finds. *)
Lemma removeModule_fields this moduleId :
  fst (removeModule moduleId this) = Normal tt
  /\ nextModuleId (snd (removeModule moduleId this)) = nextModuleId this
  /\ HabitatDesigner.modules (snd (removeModule moduleId this))
     = match findIndex (fun m => m_id m =? moduleId) (HabitatDesigner.modules this) with
       | Some moduleIndex => splice1 (HabitatDesigner.modules this) moduleIndex
       | None => HabitatDesigner.modules this
       end.
Proof.
  unfold removeModule, bind, get.
  destruct (findIndex (fun m => m_id m =? moduleId) (HabitatDesigner.modules this))
    as [index|];
    [ destruct (selectedModule this) as [selected|];
      [ destruct (m_id selected =? moduleId) | ] | ];
    repeat split; reflexivity.
Qed.

(** C10.  [removeModule] returns normally and leaves the counter alone.
    If some placed module has the id, the list loses exactly one module,
    the first with that id, and every other module keeps its record and its
    place in the order; if none has it, the list is unchanged. *)
Theorem removeModule_removes_only_that_module (this : Designer) (moduleId : Z) :
  let this' := snd (removeModule moduleId this) in
  fst (removeModule moduleId this) = Normal tt
  /\ nextModuleId this' = nextModuleId this
  /\ ((exists m, In m (HabitatDesigner.modules this) /\ m_id m = moduleId) ->
      exists front m back,
        HabitatDesigner.modules this = front ++ m :: back
        /\ m_id m = moduleId
        /\ (forall m', In m' front -> m_id m' <> moduleId)
        /\ HabitatDesigner.modules this' = front ++ back)
  /\ ((forall m, In m (HabitatDesigner.modules this) -> m_id m <> moduleId) ->
      HabitatDesigner.modules this' = HabitatDesigner.modules this).
Proof.
  cbv zeta. destruct (removeModule_fields this moduleId) as (Hf & Hn & Hm).
  rewrite Hm. split; [exact Hf | split; [exact Hn |]].
  destruct (findIndex (fun m => m_id m =? moduleId) (HabitatDesigner.modules this))
    as [index|] eqn:F.
  - destruct (findIndex_some _ _ _ F) as (front & m & back & E & Pm & Hfront & Hsplice).
    apply Z.eqb_eq in Pm. split.
    + intros _. exists front, m, back. repeat split; trivial.
      intros m' Hm' Heq. apply Hfront in Hm'. apply Z.eqb_neq in Hm'. contradiction.
    + intros Hnone. exfalso. apply (Hnone m); [| assumption].
      rewrite E. apply in_or_app. right. left. reflexivity.
  - split; [| reflexivity].
    intros [m [Hin Hid]]. exfalso.
    pose proof (findIndex_none _ _ F m Hin) as Hp. simpl in Hp.
    apply Z.eqb_neq in Hp. contradiction.
Qed.

Lemma removeModule_removes_only_that_module_witness :
  HabitatDesigner.modules (snd (removeModule 1 onePowerModule)) = []
  /\ HabitatDesigner.modules (snd (removeModule 7 onePowerModule))
     = HabitatDesigner.modules onePowerModule.
Proof.
  split.
  - destruct (proj1 (proj2 (proj2 (removeModule_removes_only_that_module onePowerModule 1))))
      as (front & m & back & E & _ & _ & ->).
    + exists (placed 1 "power" 0 0). split; [left |]; reflexivity.
    + destruct front as [|a [|b front]]; [ | | destruct front; discriminate E].
      * injection E as _ <-. reflexivity.
      * destruct back; discriminate E.
  - apply (proj2 (proj2 (proj2 (removeModule_removes_only_that_module onePowerModule 7)))).
    intros m [<- | []]. discriminate.
Defined.

(** Text that is not JSON makes [JSON.parse] throw before anything is
    touched. *)
Lemma loadHabitat_not_json confirmed this :
  loadHabitat NotJson confirmed this = (Normal ErrorLoadingHabitatDesign, this).
Proof. reflexivity. Qed.

(** C3 (evaluation at the failing input).  The claim is that a failed
    restore leaves the prior module list intact.  With one power module
    placed (the state a first drop leads to) and a saved document that has
    no [modules] field, [loadHabitat] first clears the habitat (the user
    confirming), then fails on [habitatData.modules.forEach] and reports
    the error: the module list is empty afterwards. *)
Theorem loadHabitat_without_modules_field_empties_the_habitat :
  after (Add "power" 50 50 sampleCanvas) (constructor sampleCanvas) = onePowerModule
  /\ loadHabitat (Json Undefined) true onePowerModule
     = (Normal ErrorLoadingHabitatDesign, setModules [] onePowerModule)
  /\ HabitatDesigner.modules onePowerModule = [placed 1 "power" 0 0]
  /\ HabitatDesigner.modules (snd (loadHabitat (Json Undefined) true onePowerModule)) = [].
Proof. repeat split; reflexivity. Qed.

(** *** The id counter *)

(** [addModule] either leaves list and counter alone or appends one module
    carrying the old counter value and steps the counter. *)
Lemma addModule_fields moduleType x y this :
  (HabitatDesigner.modules (snd (addModule moduleType x y this)) = HabitatDesigner.modules this
   /\ nextModuleId (snd (addModule moduleType x y this)) = nextModuleId this)
  \/ (exists m,
        m_id m = nextModuleId this
        /\ HabitatDesigner.modules (snd (addModule moduleType x y this))
           = HabitatDesigner.modules this ++ [m]
        /\ nextModuleId (snd (addModule moduleType x y this)) = nextModuleId this + 1).
Proof.
  unfold addModule.
  destruct (getModuleType moduleType) as [moduleInfo|]; [| left; split; reflexivity].
  unfold bind, get, call.
  destruct (validateModulePlacement moduleType _ (HabitatDesigner.modules this) (canvasRect this))
    as [validation | e]; [| left; split; reflexivity].
  destruct (valid validation); [| left; split; reflexivity].
  right. eexists. repeat split; reflexivity.
Qed.

Lemma after_Add_fields moduleType dropX dropY measured this :
  (HabitatDesigner.modules (after (Add moduleType dropX dropY measured) this)
   = HabitatDesigner.modules this
   /\ nextModuleId (after (Add moduleType dropX dropY measured) this) = nextModuleId this)
  \/ (exists m,
        m_id m = nextModuleId this
        /\ HabitatDesigner.modules (after (Add moduleType dropX dropY measured) this)
           = HabitatDesigner.modules this ++ [m]
        /\ nextModuleId (after (Add moduleType dropX dropY measured) this)
           = nextModuleId this + 1).
Proof.
  unfold after, perform, handleCanvasDrop.
  destruct (String.eqb moduleType ""); [left; split; reflexivity |].
  exact (addModule_fields moduleType dropX dropY
           {| HabitatDesigner.modules := HabitatDesigner.modules this;
              selectedModule := selectedModule this;
              canvasRect := measured;
              nextModuleId := nextModuleId this |}).
Qed.

Lemma clearHabitat_fields confirmed this :
  fst (clearHabitat confirmed this) = Normal tt
  /\ nextModuleId (snd (clearHabitat confirmed this)) = nextModuleId this
  /\ (HabitatDesigner.modules (snd (clearHabitat confirmed this)) = []
      \/ HabitatDesigner.modules (snd (clearHabitat confirmed this))
         = HabitatDesigner.modules this).
Proof.
  unfold clearHabitat, bind, get.
  destruct (List.length (HabitatDesigner.modules this) =? 0)%nat;
    [| destruct confirmed]; repeat split; auto.
Qed.

(** Add, remove and clear keep the counter above the ids in the list and
    never lower it. *)
Lemma operation_keeps_counter_above op this :
  isRestore op = false ->
  counterAboveCurrentIds this ->
  counterAboveCurrentIds (after op this)
  /\ nextModuleId this <= nextModuleId (after op this).
Proof.
  unfold counterAboveCurrentIds, ids. intros Hop Inv.
  destruct op as [moduleType dropX dropY measured | moduleId | confirmed | ? ?];
    [ | | | discriminate Hop ].
  - destruct (after_Add_fields moduleType dropX dropY measured this)
      as [[-> ->] | (m & Hid & -> & ->)].
    + split; [assumption | lia].
    + split; [| lia]. rewrite map_app. apply Forall_app. split.
      * eapply Forall_impl; [| exact Inv]. simpl; intros; lia.
      * constructor; [lia | constructor].
  - unfold after, perform.
    destruct (removeModule_fields this moduleId) as (_ & -> & ->). split; [| lia].
    destruct (findIndex (fun m => m_id m =? moduleId) (HabitatDesigner.modules this))
      as [index|] eqn:F; [| assumption].
    destruct (findIndex_some _ _ _ F) as (front & m & back & E & _ & _ & ->).
    rewrite E, map_app in Inv. apply Forall_app in Inv as [Hfront Hback].
    rewrite map_app. apply Forall_app. split; [assumption |].
    simpl in Hback. inversion Hback; assumption.
  - unfold after, perform.
    destruct (clearHabitat_fields confirmed this) as (_ & -> & [-> | ->]).
    + split; [constructor | lia].
    + split; [assumption | lia].
Qed.

Lemma everHeld_cons op rest start :
  everHeld (op :: rest) start = ids start ++ everHeld rest (after op start).
Proof. reflexivity. Qed.

Lemma lineage_counter_above ops : forall start,
  withoutRestore ops = true ->
  counterAboveCurrentIds start ->
  counterAboveEveryIdEverHeld ops start
  /\ nextModuleId start <= nextModuleId (final ops start).
Proof.
  unfold counterAboveEveryIdEverHeld.
  induction ops as [|op rest IH]; intros start Hops Inv.
  - split; [| simpl; lia]. unfold everHeld; simpl. rewrite app_nil_r. exact Inv.
  - simpl in Hops. apply andb_true_iff in Hops as [Hop Hrest].
    apply negb_true_iff in Hop.
    destruct (operation_keeps_counter_above op start Hop Inv) as [Inv' Hle].
    destruct (IH (after op start) Hrest Inv') as [Hheld Hle'].
    change (final (op :: rest) start) with (final rest (after op start)).
    rewrite everHeld_cons. split; [| lia].
    apply Forall_app. split; [| exact Hheld].
    eapply Forall_impl; [| exact Inv]. simpl; intros; lia.
Qed.

Lemma maxOf_above others : forall first,
  first <= maxOf first others /\ Forall (fun id => id <= maxOf first others) others.
Proof.
  unfold maxOf. induction others as [|id rest IH]; intros first; simpl.
  - split; [lia | constructor].
  - destruct (IH (Z.max first id)) as [Hmax Hrest]. split; [lia |].
    constructor; [lia | exact Hrest].
Qed.

(** [updateNextId] returns, keeps the list, and leaves the counter above
    every id in it. *)
Lemma updateNextId_fields this :
  fst (updateNextId this) = Normal tt
  /\ HabitatDesigner.modules (snd (updateNextId this)) = HabitatDesigner.modules this
  /\ counterAboveCurrentIds (snd (updateNextId this)).
Proof.
  unfold updateNextId, bind, get, counterAboveCurrentIds, ids.
  destruct (map m_id (HabitatDesigner.modules this)) as [|first others] eqn:E.
  - simpl. rewrite E. repeat split; constructor.
  - simpl. rewrite E. repeat split; trivial.
    destruct (maxOf_above others first) as [Hfirst Hothers].
    constructor; [lia |].
    eapply Forall_impl; [| exact Hothers]. simpl; intros; lia.
Qed.

(** C4 (as stated) fails.  After three placements, the removal of module 3
    and a restore of the design saved at that point, the counter is back at
    3, an id the lineage has held; the next placement is given id 3 again. *)
Lemma restore_lets_an_id_be_reused :
  ~ counterAboveEveryIdEverHeld removeThenRestore (constructor sampleCanvas)
  /\ In 3 (everHeld removeThenRestore (constructor sampleCanvas))
  /\ ids (final removeThenRestore (constructor sampleCanvas)) = [1; 2]
  /\ ids (final (removeThenRestore ++ [Add "power" 250 50 sampleCanvas])
            (constructor sampleCanvas)) = [1; 2; 3].
Proof.
  assert (In 3 (everHeld removeThenRestore (constructor sampleCanvas))) as Held
    by (vm_compute; tauto).
  repeat split; trivial.
  intros H. unfold counterAboveEveryIdEverHeld in H.
  rewrite Forall_forall in H. apply H in Held. vm_compute in Held. discriminate Held.
Qed.

(** C4 (amended).  In every state reached from a new designer by add,
    remove and clear operations (no restore), the counter is above every id
    the lineage has ever held, so the module a further placement appends
    carries an id never held before: after the removal of module 3 no later
    placement is given id 3 again. *)
Theorem counter_above_every_id_ever_held_without_restore canvas ops :
  withoutRestore ops = true ->
  counterAboveEveryIdEverHeld ops (constructor canvas)
  /\ forall moduleType dropX dropY measured,
       HabitatDesigner.modules
         (after (Add moduleType dropX dropY measured) (final ops (constructor canvas)))
       = HabitatDesigner.modules (final ops (constructor canvas))
       \/ exists m,
            HabitatDesigner.modules
              (after (Add moduleType dropX dropY measured) (final ops (constructor canvas)))
            = HabitatDesigner.modules (final ops (constructor canvas)) ++ [m]
            /\ ~ In (m_id m) (everHeld ops (constructor canvas)).
Proof.
  intros Hops.
  assert (counterAboveCurrentIds (constructor canvas)) as Inv0 by constructor.
  destruct (lineage_counter_above ops (constructor canvas) Hops Inv0) as [Hheld _].
  split; [exact Hheld |].
  intros moduleType dropX dropY measured.
  destruct (after_Add_fields moduleType dropX dropY measured (final ops (constructor canvas)))
    as [[-> _] | (m & Hid & -> & _)]; [left; reflexivity | right].
  exists m. split; [reflexivity |].
  intros Hin. unfold counterAboveEveryIdEverHeld in Hheld.
  rewrite Forall_forall in Hheld. apply Hheld in Hin. lia.
Qed.

Lemma counter_above_every_id_ever_held_without_restore_witness :
  counterAboveEveryIdEverHeld
    [Add "power" 50 50 sampleCanvas; Add "power" 150 50 sampleCanvas;
     Add "power" 250 50 sampleCanvas; Remove 3; Clear true]
    (constructor sampleCanvas).
Proof.
  apply (counter_above_every_id_ever_held_without_restore sampleCanvas
           [Add "power" 50 50 sampleCanvas; Add "power" 150 50 sampleCanvas;
            Add "power" 250 50 sampleCanvas; Remove 3; Clear true]).
  reflexivity.
Defined.

End Designer.

(** * Further properties *)

(** ** The overlap test and the verdicts of the validator *)

Section ValidatorVerdicts.
Import Layout.

(** X1.  The overlap test does not depend on the order of its two
    rectangles. *)
Theorem modulesOverlap_symmetric (a b : Rect) :
  modulesOverlap a b = modulesOverlap b a.
Proof.
  unfold modulesOverlap.
  destruct (r_x a + r_width a <=? r_x b), (r_x b + r_width b <=? r_x a),
           (r_y a + r_height a <=? r_y b), (r_y b + r_height b <=? r_y a);
    reflexivity.
Qed.

(** X2.  Two rectangles of positive width and height overlap exactly when
    their horizontal extents and their vertical extents both meet in more
    than a point: the larger of the two left edges is strictly left of the
    smaller of the two right edges, and likewise for top and bottom. *)
Theorem modulesOverlap_iff_extents_meet (a b : Rect) :
  0 < r_width a -> 0 < r_height a -> 0 < r_width b -> 0 < r_height b ->
  (modulesOverlap a b = true
   <-> Z.max (r_x a) (r_x b) < Z.min (r_x a + r_width a) (r_x b + r_width b)
       /\ Z.max (r_y a) (r_y b) < Z.min (r_y a + r_height a) (r_y b + r_height b)).
Proof.
  intros Hwa Hha Hwb Hhb.
  unfold modulesOverlap. rewrite negb_true_iff. repeat rewrite orb_false_iff.
  repeat rewrite Z.leb_gt. lia.
Qed.

Lemma modulesOverlap_iff_extents_meet_witness :
  modulesOverlap {| r_x := 0; r_y := 0; r_width := 100; r_height := 100 |}
                 {| r_x := 99; r_y := 99; r_width := 80; r_height := 80 |} = true.
Proof.
  apply modulesOverlap_iff_extents_meet; simpl; lia.
Defined.

Lemma bounds_test_outside module position canvasSize :
  ~ inBounds (candidateRect module position) canvasSize ->
  (pos_x position <? 0) || (pos_y position <? 0)
  || (width canvasSize <? pos_x position + width (Profile.dimensions module))
  || (height canvasSize <? pos_y position + height (Profile.dimensions module)) = true.
Proof.
  unfold inBounds, candidateRect, rect; simpl. intros H.
  destruct (pos_x position <? 0) eqn:A; [reflexivity |].
  destruct (pos_y position <? 0) eqn:B; [reflexivity |].
  destruct (width canvasSize <? pos_x position + width (Profile.dimensions module)) eqn:C;
    [reflexivity |].
  destruct (height canvasSize <? pos_y position + height (Profile.dimensions module)) eqn:D;
    [reflexivity |].
  exfalso. apply H. apply Z.ltb_ge in A, B, C, D. lia.
Qed.

Lemma inBounds_dec r canvasSize : {inBounds r canvasSize} + {~ inBounds r canvasSize}.
Proof.
  unfold inBounds.
  destruct (Z_le_dec 0 (r_x r)), (Z_le_dec 0 (r_y r)),
           (Z_le_dec (r_x r + r_width r) (width canvasSize)),
           (Z_le_dec (r_y r + r_height r) (height canvasSize));
    try (left; repeat split; assumption); right; intros (? & ? & ? & ?); contradiction.
Qed.

(** A loop that ends with a valid verdict has seen only known types and no
    overlap. *)
Lemma overlapLoop_valid candidate existingModules : forall v,
  overlapLoop candidate existingModules = Normal v ->
  valid v = true ->
  noneOverlaps candidate existingModules /\ v = ok.
Proof.
  induction existingModules as [|m rest IH]; simpl; intros v H Hv.
  - injection H as <-. split; [constructor | reflexivity].
  - destruct (getModuleType (m_type m)) as [t|] eqn:Ht; [| discriminate].
    destruct (modulesOverlap candidate _) eqn:Hov.
    + injection H as <-. discriminate.
    + destruct (IH v H Hv) as [Hrest ->]. split; [| reflexivity].
      constructor; [| exact Hrest]. exists t. split; assumption.
Qed.

(** Over known types the loop is a search for an overlapping rectangle. *)
Lemma overlapLoop_search candidate existingModules :
  forallb known existingModules = true ->
  overlapLoop candidate existingModules
  = Normal (if overlapsSome candidate existingModules then overlapping else ok).
Proof.
  induction existingModules as [|m rest IH]; simpl; intros H.
  - reflexivity.
  - apply andb_true_iff in H as [Hm Hrest].
    unfold footprint. destruct (getModuleType_known m Hm) as [t ->].
    destruct (modulesOverlap candidate _); simpl; [reflexivity | apply IH; exact Hrest].
Qed.

(** X3.  Over existing modules none of which has an inherited name as its
    type, a placement is declared valid exactly when the type is in the
    table, the rectangle lies inside the canvas, and every existing module
    has a known type and a rectangle clear of the candidate's; a valid
    result is always the bare [{ valid: true }]. *)
Theorem placement_valid_iff moduleType position existingModules canvasSize :
  plainTypes existingModules ->
  (validateModulePlacement moduleType position existingModules canvasSize = Normal ok
   <-> exists module,
         getModuleType moduleType = Some module
         /\ inBounds (candidateRect module position) canvasSize
         /\ noneOverlaps (candidateRect module position) existingModules)
  /\ (forall v,
        validateModulePlacement moduleType position existingModules canvasSize = Normal v ->
        valid v = true -> v = ok).
Proof.
  intros _.
  assert (forall v,
            validateModulePlacement moduleType position existingModules canvasSize = Normal v ->
            valid v = true ->
            v = ok
            /\ exists module,
                 getModuleType moduleType = Some module
                 /\ inBounds (candidateRect module position) canvasSize
                 /\ noneOverlaps (candidateRect module position) existingModules) as Hvalid.
  { intros v H Hv. unfold validateModulePlacement in H.
    destruct (getModuleType moduleType) as [module|] eqn:Ht;
      [| injection H as <-; discriminate].
    destruct (inBounds_dec (candidateRect module position) canvasSize) as [Hin | Hout].
    - rewrite (bounds_test_inside _ _ _ Hin) in H.
      destruct (overlapLoop_valid _ _ v H Hv) as [Hclear ->].
      split; [reflexivity |]. exists module.
      split; [reflexivity || exact Ht | split; [exact Hin | exact Hclear]].
    - rewrite (bounds_test_outside _ _ _ Hout) in H. injection H as <-. discriminate. }
  split; [split |].
  - intros H. apply (Hvalid ok H). reflexivity.
  - intros (module & Ht & Hin & Hclear).
    rewrite (validate_inside _ module) by assumption.
    apply overlapLoop_clear. exact Hclear.
  - intros v H Hv. apply (Hvalid v H Hv).
Qed.

Lemma placement_valid_iff_witness :
  validateModulePlacement "power" {| pos_x := 900; pos_y := 0 |} [placed 1 "airlock" 0 0]
    {| width := 1000; height := 1000 |} = Normal ok.
Proof.
  assert (plainTypes [placed 1 "airlock" 0 0]) as Hplain
    by (constructor;
        [unfold plainName, inheritedNames; simpl; intuition discriminate | constructor]).
  apply (proj2 (proj1 (placement_valid_iff "power" {| pos_x := 900; pos_y := 0 |}
                         [placed 1 "airlock" 0 0] {| width := 1000; height := 1000 |}
                         Hplain))).
  eexists. split; [reflexivity |]. split.
  - unfold inBounds; simpl; lia.
  - constructor; [| constructor]. eexists. split; reflexivity.
Defined.

(** X4.  The verdict follows the order of the checks.  A type the table
    lacks (and no object inherits) is reported first and a rectangle outside
    the canvas second, whatever the existing modules are; inside the canvas
    and over existing modules of known types, the verdict is the overlap
    failure when some existing rectangle overlaps the candidate's and
    validity otherwise. *)
Theorem placement_verdict moduleType position existingModules canvasSize :
  (getModuleType moduleType = None ->
   plainName moduleType ->
   validateModulePlacement moduleType position existingModules canvasSize
   = Normal unknownType)
  /\ (forall module,
        getModuleType moduleType = Some module ->
        ~ inBounds (candidateRect module position) canvasSize ->
        validateModulePlacement moduleType position existingModules canvasSize
        = Normal outOfBounds)
  /\ (forall module,
        getModuleType moduleType = Some module ->
        inBounds (candidateRect module position) canvasSize ->
        forallb known existingModules = true ->
        validateModulePlacement moduleType position existingModules canvasSize
        = Normal (if overlapsSome (candidateRect module position) existingModules
                  then overlapping else ok)).
Proof.
  repeat split.
  - intros Ht _. unfold validateModulePlacement. rewrite Ht. reflexivity.
  - intros module Ht Hout. unfold validateModulePlacement. rewrite Ht.
    rewrite (bounds_test_outside _ _ _ Hout). reflexivity.
  - intros module Ht Hin Hknown.
    rewrite (validate_inside _ module) by assumption.
    apply overlapLoop_search. exact Hknown.
Qed.

Lemma placement_verdict_witness :
  validateModulePlacement "medical-bay" {| pos_x := 0; pos_y := 0 |} [medicalBay]
    {| width := 1000; height := 1000 |} = Normal unknownType
  /\ validateModulePlacement "power" {| pos_x := -1; pos_y := 0 |} [medicalBay]
       {| width := 1000; height := 1000 |} = Normal outOfBounds
  /\ validateModulePlacement "power" {| pos_x := 50; pos_y := 50 |} [placed 1 "power" 0 0]
       {| width := 1000; height := 1000 |} = Normal overlapping.
Proof.
  split; [| split].
  - apply (proj1 (placement_verdict "medical-bay" _ _ _)); [reflexivity |].
    unfold plainName, inheritedNames. simpl. intuition discriminate.
  - refine (proj1 (proj2 (placement_verdict "power" {| pos_x := -1; pos_y := 0 |} _ _))
              _ eq_refl _).
    unfold inBounds; simpl; lia.
  - refine (proj2 (proj2 (placement_verdict "power" {| pos_x := 50; pos_y := 50 |}
                            [placed 1 "power" 0 0] {| width := 1000; height := 1000 |}))
              _ eq_refl _ eq_refl).
    unfold inBounds; simpl; lia.
Defined.

Lemma existsb_permutation {A} (f : A -> bool) l l' :
  Permutation l l' -> existsb f l = existsb f l'.
Proof.
  induction 1; simpl.
  - reflexivity.
  - rewrite IHPermutation; reflexivity.
  - destruct (f x), (f y); reflexivity.
  - congruence.
Qed.

Lemma forallb_permutation {A} (f : A -> bool) l l' :
  Permutation l l' -> forallb f l = forallb f l'.
Proof.
  induction 1; simpl.
  - reflexivity.
  - rewrite IHPermutation; reflexivity.
  - destruct (f x), (f y); reflexivity.
  - congruence.
Qed.

(** X5.  Over existing modules of known types the verdict does not depend
    on the order of the list. *)
Theorem placement_order_independent moduleType position existingModules reordered canvasSize :
  Permutation existingModules reordered ->
  forallb known existingModules = true ->
  validateModulePlacement moduleType position existingModules canvasSize
  = validateModulePlacement moduleType position reordered canvasSize.
Proof.
  intros Hperm Hknown.
  assert (forallb known reordered = true) as Hknown'
    by (rewrite <- (forallb_permutation known _ _ Hperm); exact Hknown).
  unfold validateModulePlacement.
  destruct (getModuleType moduleType) as [module|]; [| reflexivity].
  destruct ((pos_x position <? 0) || (pos_y position <? 0)
            || (width canvasSize <? pos_x position + width (Profile.dimensions module))
            || (height canvasSize <? pos_y position + height (Profile.dimensions module)));
    [reflexivity |].
  rewrite (overlapLoop_search _ _ Hknown), (overlapLoop_search _ _ Hknown').
  unfold overlapsSome. rewrite (existsb_permutation _ _ _ Hperm). reflexivity.
Qed.

Lemma placement_order_independent_witness :
  validateModulePlacement "power" {| pos_x := 150; pos_y := 0 |}
    [placed 1 "power" 0 0; placed 2 "airlock" 200 0] {| width := 1000; height := 1000 |}
  = validateModulePlacement "power" {| pos_x := 150; pos_y := 0 |}
      [placed 2 "airlock" 200 0; placed 1 "power" 0 0] {| width := 1000; height := 1000 |}.
Proof.
  apply placement_order_independent; [apply perm_swap | reflexivity].
Defined.

(** X6.  With a module among the existing ones whose type the table lacks
    (and no object inherits) the order does matter: the loop stops at the
    first overlap it meets but throws at the first such type, whichever
    comes first. *)
Theorem placement_order_matters_with_unknown_type :
  forall moduleType module position canvasSize existing unknown,
    getModuleType moduleType = Some module ->
    inBounds (candidateRect module position) canvasSize ->
    known unknown = false ->
    plainName (m_type unknown) ->
    overlapsSome (candidateRect module position) [existing] = true ->
    validateModulePlacement moduleType position [existing; unknown] canvasSize
    = Normal overlapping
    /\ validateModulePlacement moduleType position [unknown; existing] canvasSize
       = Throw TypeError.
Proof.
  intros moduleType module position canvasSize existing unknown Ht Hin Hunknown _ Hov.
  repeat rewrite (validate_inside _ module) by assumption.
  unfold overlapsSome, footprint in Hov. simpl in *. unfold known in Hunknown.
  destruct (getModuleType (m_type unknown)); [discriminate |].
  destruct (getModuleType (m_type existing)) as [t|]; [| discriminate].
  rewrite orb_false_r in Hov. rewrite Hov. split; reflexivity.
Qed.

Lemma placement_order_matters_with_unknown_type_witness :
  validateModulePlacement "power" {| pos_x := 50; pos_y := 50 |}
    [placed 2 "power" 0 0; medicalBay] {| width := 1000; height := 1000 |}
  = Normal overlapping
  /\ validateModulePlacement "power" {| pos_x := 50; pos_y := 50 |}
       [medicalBay; placed 2 "power" 0 0] {| width := 1000; height := 1000 |}
     = Throw TypeError.
Proof.
  refine (placement_order_matters_with_unknown_type "power" _
            {| pos_x := 50; pos_y := 50 |} {| width := 1000; height := 1000 |}
            (placed 2 "power" 0 0) medicalBay eq_refl _ eq_refl _ eq_refl).
  - unfold inBounds; simpl; lia.
  - unfold plainName, inheritedNames. simpl. intuition discriminate.
Defined.

End ValidatorVerdicts.

(** ** What the alerts and the totals say about a layout *)

Section AlertsAndTotals.
Import Layout ResourceCalculator.

(** X7.  The alert list has between one and five entries, and at most one of
    them is about power reserve, at most one about oxygen reserve and at most
    one about crew capacity: a deficit and a low-reserve alert never come
    together. *)
Theorem alerts_one_to_five_one_per_resource resources :
  (1 <= List.length (getSafetyAlerts resources) <= 5)%nat
  /\ (List.length (filter aboutPower (getSafetyAlerts resources)) <= 1)%nat
  /\ (List.length (filter aboutOxygen (getSafetyAlerts resources)) <= 1)%nat
  /\ (List.length (filter aboutCrew (getSafetyAlerts resources)) <= 1)%nat.
Proof.
  unfold getSafetyAlerts, push.
  destruct (powerBalance resources <? 0), (powerBalance resources <? 10),
           (oxygenBalance resources <? 0), (oxygenBalance resources <? 5),
           (crewCapacity resources =? 0), (crewCapacity resources <? 4),
           (includes _ "airlock"), (includes _ "power");
    cbn; lia.
Qed.

Lemma fired_alert_listed rule resources :
  fires rule resources = true -> In (alertOf rule resources) (getSafetyAlerts resources).
Proof.
  intros E. rewrite getSafetyAlerts_by_rules.
  apply fired_spec in E.
  destruct (fired resources) as [|r0 rest] eqn:F; [destruct E |].
  apply in_map_iff. exists rule. split; [reflexivity | exact E].
Qed.

Lemma fired_alert_silences_nominal rule resources :
  fires rule resources = true -> ~ In nominal (getSafetyAlerts resources).
Proof.
  intros E. rewrite getSafetyAlerts_by_rules.
  apply fired_spec in E.
  destruct (fired resources) as [|r0 rest] eqn:F; [destruct E |].
  intros Hin. apply in_map_iff in Hin as [r [Hr _]].
  apply (alertOf_not_nominal r resources). rewrite Hr. reflexivity.
Qed.

(** X8.  The totals as [calculateTotalResources] returns them (the
    [resources] of [getHabitatState] and [exportHabitat]) carry no type
    list, so the alerts computed from them always hold the missing-airlock
    warning and the missing-power danger, and never the nominal entry,
    whatever modules are placed. *)
Theorem alerts_of_bare_totals_miss_airlock_and_power modules :
  In {| a_type := warning; a_message := NoAirlock |}
     (getSafetyAlerts (calculateTotalResources modules))
  /\ In {| a_type := danger; a_message := NoPowerModules |}
        (getSafetyAlerts (calculateTotalResources modules))
  /\ ~ In nominal (getSafetyAlerts (calculateTotalResources modules)).
Proof.
  split; [| split].
  - apply (fired_alert_listed NoAirlockRule). reflexivity.
  - apply (fired_alert_listed NoPowerGenerationRule). reflexivity.
  - apply (fired_alert_silences_nominal NoAirlockRule). reflexivity.
Qed.

Lemma property_In key (obj : list (string * ModuleType)) v :
  property key obj = Some v -> In (key, v) obj.
Proof.
  induction obj as [|[k w] rest IH]; simpl; [discriminate |].
  destruct (String.eqb k key) eqn:E.
  - apply String.eqb_eq in E. subst k. injection 1 as <-. left; reflexivity.
  - intros H. right. apply IH. exact H.
Qed.

(** Table facts: oxygen is produced by greenhouses only, power by power
    modules only, and no entry consumes a negative amount. *)
Lemma table_facts s t :
  getModuleType s = Some t ->
  (s <> "greenhouse" -> orZero (Profile.oxygenProduction t) = 0)
  /\ (s <> "power" -> orZero (Profile.powerGeneration t) = 0)
  /\ 0 <= orZero (Profile.oxygenConsumption t)
  /\ 0 <= orZero (Profile.powerConsumption t)
  /\ 0 <= orZero (Profile.oxygenProduction t)
  /\ 0 <= orZero (Profile.powerGeneration t).
Proof.
  intros H. apply property_In in H. unfold moduleTypes in H. simpl in H.
  repeat (destruct H as [H | H];
          [ injection H as <- <-;
            repeat split; simpl; try lia; intros Hne; try reflexivity;
            exfalso; apply Hne; reflexivity | ]).
  destruct H.
Qed.

Lemma includes_cons s (m : Module) rest :
  includes (map m_type (m :: rest)) s = false ->
  m_type m <> s /\ includes (map m_type rest) s = false.
Proof.
  unfold includes; simpl. intros H. apply orb_false_iff in H as [Hm Hrest].
  split; [| exact Hrest]. intros <-. rewrite String.eqb_refl in Hm. discriminate.
Qed.

(** Without a greenhouse nothing produces oxygen, without a power module
    nothing generates power; consumption is never negative. *)
Lemma totals_without_producers modules :
  let t := fold_left accumulate modules noTotals in
  (includes (map m_type modules) "greenhouse" = false -> totalOxygenProduction t = 0)
  /\ (includes (map m_type modules) "power" = false -> totalPowerGeneration t = 0)
  /\ 0 <= totalOxygenConsumption t
  /\ 0 <= totalPowerConsumption t.
Proof.
  cbv zeta. induction modules as [|m rest IH].
  - simpl. repeat split; intros; lia.
  - cbn [fold_left].
    destruct (fold_accumulate_counts rest (accumulate noTotals m)) as (A1 & A2 & A3 & A4 & _).
    rewrite A1, A2, A3, A4. destruct IH as (I1 & I2 & I3 & I4).
    set (others := fold_left accumulate rest noTotals) in *.
    unfold accumulate. destruct (getModuleType (m_type m)) as [t|] eqn:Ht.
    + destruct (table_facts _ _ Ht) as (T1 & T2 & T3 & T4 & _).
      cbn [totalOxygenProduction totalPowerGeneration totalOxygenConsumption
           totalPowerConsumption noTotals].
      repeat split.
      * intros H. apply includes_cons in H as [Hm Hrest]. rewrite (T1 Hm), (I1 Hrest). lia.
      * intros H. apply includes_cons in H as [Hm Hrest]. rewrite (T2 Hm), (I2 Hrest). lia.
      * lia.
      * lia.
    + cbn [totalOxygenProduction totalPowerGeneration totalOxygenConsumption
           totalPowerConsumption noTotals].
      repeat split.
      * intros H. apply includes_cons in H as [_ Hrest]. rewrite (I1 Hrest). lia.
      * intros H. apply includes_cons in H as [_ Hrest]. rewrite (I2 Hrest). lia.
      * lia.
      * lia.
Qed.

(** X9.  When the panel shows the single nominal entry, the layout holds at
    least an airlock, a power module and a greenhouse (the only producer of
    oxygen), the power balance is at least 10, the oxygen balance at least 5
    and the crew capacity at least 4. *)
Theorem nominal_layout_has_the_essentials modules :
  snd (updateResources modules) = [nominal] ->
  includes (map m_type modules) "airlock" = true
  /\ includes (map m_type modules) "power" = true
  /\ includes (map m_type modules) "greenhouse" = true
  /\ 10 <= powerBalance (fst (updateResources modules))
  /\ 5 <= oxygenBalance (fst (updateResources modules))
  /\ 4 <= crewCapacity (fst (updateResources modules)).
Proof.
  intros Hnominal.
  assert (forall rule, fires rule (fst (updateResources modules)) = false) as Quiet.
  { intros rule. destruct (fires rule (fst (updateResources modules))) eqn:E; [| reflexivity].
    exfalso. apply (fired_alert_silences_nominal rule _ E).
    change (getSafetyAlerts (fst (updateResources modules)))
      with (snd (updateResources modules)).
    rewrite Hnominal. left; reflexivity. }
  pose proof (Quiet PowerDeficitRule) as Q1. pose proof (Quiet LowPowerRule) as Q2.
  pose proof (Quiet OxygenDeficitRule) as Q3. pose proof (Quiet LowOxygenRule) as Q4.
  pose proof (Quiet NoLivingQuartersRule) as Q5. pose proof (Quiet LimitedCrewRule) as Q6.
  pose proof (Quiet NoAirlockRule) as Q7. pose proof (Quiet NoPowerGenerationRule) as Q8.
  cbn [fires] in Q1, Q2, Q3, Q4, Q5, Q6, Q7, Q8.
  apply negb_false_iff in Q7, Q8.
  apply Z.ltb_ge in Q1, Q3. apply Z.eqb_neq in Q5.
  apply andb_false_iff in Q2 as [Q2 | Q2]; [apply Z.leb_gt in Q2; lia |].
  apply andb_false_iff in Q4 as [Q4 | Q4]; [apply Z.leb_gt in Q4; lia |].
  apply andb_false_iff in Q6 as [Q6 | Q6];
    [apply negb_false_iff in Q6; apply Z.eqb_eq in Q6; contradiction |].
  apply Z.ltb_ge in Q2, Q4, Q6.
  split; [exact Q7 | split; [exact Q8 |]].
  split; [| repeat split; assumption].
  destruct (includes (map m_type modules) "greenhouse") eqn:G; [reflexivity | exfalso].
  destruct (totals_without_producers modules) as (P1 & _ & P3 & _).
  specialize (P1 G).
  unfold updateResources, withModuleTypes, calculateTotalResources in Q4; cbn in Q4.
  lia.
Qed.

Lemma nominal_layout_has_the_essentials_witness :
  includes
    (map m_type [placed 1 "power" 0 0; placed 2 "power" 100 0; placed 3 "airlock" 200 0;
                 placed 4 "greenhouse" 280 0; placed 5 "living-quarters" 440 0])
    "greenhouse" = true.
Proof.
  apply (nominal_layout_has_the_essentials
           [placed 1 "power" 0 0; placed 2 "power" 100 0; placed 3 "airlock" 200 0;
            placed 4 "greenhouse" 280 0; placed 5 "living-quarters" 440 0]).
  reflexivity.
Defined.

(** Below the reserve thresholds exactly one alert speaks of the resource. *)
Lemma one_alert_below_threshold resources :
  (powerBalance resources < 10 ->
   List.length (filter aboutPower (getSafetyAlerts resources)) = 1%nat)
  /\ (oxygenBalance resources < 5 ->
      List.length (filter aboutOxygen (getSafetyAlerts resources)) = 1%nat).
Proof.
  unfold getSafetyAlerts, push.
  destruct (powerBalance resources <? 0) eqn:P0,
           (powerBalance resources <? 10) eqn:P10,
           (oxygenBalance resources <? 0) eqn:O0,
           (oxygenBalance resources <? 5) eqn:O5,
           (crewCapacity resources =? 0), (crewCapacity resources <? 4),
           (includes _ "airlock"), (includes _ "power");
    split; intros H; try reflexivity;
    try (apply Z.ltb_ge in P10; apply Z.ltb_ge in P0; lia);
    try (apply Z.ltb_ge in O5; apply Z.ltb_ge in O0; lia).
Qed.

(** X10.  With no power module placed the power balance is never positive,
    so the missing-power danger always comes with exactly one of the power
    deficit and low power reserve alerts; with no greenhouse the oxygen
    balance is never positive and one of the two oxygen alerts is shown. *)
Theorem no_producer_no_surplus modules :
  (includes (map m_type modules) "power" = false ->
   powerBalance (fst (updateResources modules)) <= 0
   /\ In {| a_type := danger; a_message := NoPowerModules |} (snd (updateResources modules))
   /\ List.length (filter aboutPower (snd (updateResources modules))) = 1%nat)
  /\ (includes (map m_type modules) "greenhouse" = false ->
      oxygenBalance (fst (updateResources modules)) <= 0
      /\ List.length (filter aboutOxygen (snd (updateResources modules))) = 1%nat).
Proof.
  destruct (totals_without_producers modules) as (P1 & P2 & P3 & P4).
  split.
  - intros Hp. specialize (P2 Hp).
    assert (powerBalance (fst (updateResources modules)) <= 0) as Hb
      by (unfold updateResources, withModuleTypes, calculateTotalResources;
          cbn [fst powerBalance]; lia).
    split; [exact Hb | split].
    + apply (fired_alert_listed NoPowerGenerationRule (fst (updateResources modules))).
      change (negb (includes (map m_type modules) "power") = true).
      rewrite Hp. reflexivity.
    + apply (proj1 (one_alert_below_threshold (fst (updateResources modules)))). lia.
  - intros Hg. specialize (P1 Hg).
    assert (oxygenBalance (fst (updateResources modules)) <= 0) as Hb
      by (unfold updateResources, withModuleTypes, calculateTotalResources;
          cbn [fst oxygenBalance]; lia).
    split; [exact Hb |].
    apply (proj2 (one_alert_below_threshold (fst (updateResources modules)))). lia.
Qed.

Lemma no_producer_no_surplus_witness :
  powerBalance (fst (updateResources [placed 1 "living-quarters" 0 0])) <= 0
  /\ oxygenBalance (fst (updateResources [placed 1 "living-quarters" 0 0])) <= 0.
Proof.
  split.
  - apply (proj1 (no_producer_no_surplus [placed 1 "living-quarters" 0 0])). reflexivity.
  - apply (proj2 (no_producer_no_surplus [placed 1 "living-quarters" 0 0])). reflexivity.
Defined.

End AlertsAndTotals.

(** ** Order of the module list *)

Section ListOrder.
Import Layout ResourceCalculator.

(** The integer totals of one more module do not depend on what the area
    accumulator holds, and two modules commute. *)
Lemma fold_counts_permutation l l' :
  Permutation l l' ->
  totalPowerConsumption (fold_left accumulate l noTotals)
  = totalPowerConsumption (fold_left accumulate l' noTotals)
  /\ totalPowerGeneration (fold_left accumulate l noTotals)
     = totalPowerGeneration (fold_left accumulate l' noTotals)
  /\ totalOxygenProduction (fold_left accumulate l noTotals)
     = totalOxygenProduction (fold_left accumulate l' noTotals)
  /\ totalOxygenConsumption (fold_left accumulate l noTotals)
     = totalOxygenConsumption (fold_left accumulate l' noTotals)
  /\ totalCrewCapacity (fold_left accumulate l noTotals)
     = totalCrewCapacity (fold_left accumulate l' noTotals).
Proof.
  induction 1 as [| x l l' _ IH | x y l | l l' l'' _ IH1 _ IH2].
  - repeat split; reflexivity.
  - cbn [fold_left].
    destruct (fold_accumulate_counts l (accumulate noTotals x)) as (A1 & A2 & A3 & A4 & A5).
    destruct (fold_accumulate_counts l' (accumulate noTotals x)) as (B1 & B2 & B3 & B4 & B5).
    rewrite A1, A2, A3, A4, A5, B1, B2, B3, B4, B5.
    destruct IH as (-> & -> & -> & -> & ->). repeat split; reflexivity.
  - cbn [fold_left].
    destruct (fold_accumulate_counts l (accumulate (accumulate noTotals y) x))
      as (A1 & A2 & A3 & A4 & A5).
    destruct (fold_accumulate_counts l (accumulate (accumulate noTotals x) y))
      as (B1 & B2 & B3 & B4 & B5).
    rewrite A1, A2, A3, A4, A5, B1, B2, B3, B4, B5.
    set (others := fold_left accumulate l noTotals).
    unfold accumulate.
    destruct (getModuleType (m_type x)), (getModuleType (m_type y));
      cbn [totalPowerConsumption totalPowerGeneration totalOxygenProduction
           totalOxygenConsumption totalCrewCapacity noTotals];
      repeat split; lia.
  - destruct IH1 as (-> & -> & -> & -> & ->). exact IH2.
Qed.

(** X11.  The integer fields of a snapshot (balances, crew capacity, module
    count and the four sums) and the alerts shown do not depend on the order
    of the module list. *)
Theorem snapshot_counts_and_alerts_order_independent modules reordered :
  Permutation modules reordered ->
  counts (fst (updateResources modules)) = counts (fst (updateResources reordered))
  /\ snd (updateResources modules) = snd (updateResources reordered).
Proof.
  intros Hperm.
  destruct (fold_counts_permutation _ _ Hperm) as (E1 & E2 & E3 & E4 & E5).
  assert (counts (fst (updateResources modules)) = counts (fst (updateResources reordered)))
    as Hcounts.
  { unfold counts, updateResources, withModuleTypes, calculateTotalResources.
    cbn [fst powerBalance oxygenBalance crewCapacity HabitatModules.modules
         powerConsumption powerGeneration oxygenProduction oxygenConsumption].
    rewrite E1, E2, E3, E4, E5, (Permutation_length Hperm). reflexivity. }
  split; [exact Hcounts |].
  change (getSafetyAlerts (fst (updateResources modules))
          = getSafetyAlerts (fst (updateResources reordered))).
  assert (powerBalance (fst (updateResources modules))
          = powerBalance (fst (updateResources reordered))) as Hpb
    by exact (f_equal (fun c => match c with (v, _, _, _, _, _, _, _) => v end) Hcounts).
  assert (oxygenBalance (fst (updateResources modules))
          = oxygenBalance (fst (updateResources reordered))) as Hob
    by exact (f_equal (fun c => match c with (_, v, _, _, _, _, _, _) => v end) Hcounts).
  assert (crewCapacity (fst (updateResources modules))
          = crewCapacity (fst (updateResources reordered))) as Hcc
    by exact (f_equal (fun c => match c with (_, _, v, _, _, _, _, _) => v end) Hcounts).
  unfold getSafetyAlerts. rewrite Hpb, Hob, Hcc.
  change (resourceModuleTypes (fst (updateResources modules)))
    with (Some (map m_type modules)).
  change (resourceModuleTypes (fst (updateResources reordered)))
    with (Some (map m_type reordered)).
  cbv iota. unfold includes.
  rewrite (existsb_permutation (String.eqb "airlock") _ _ (Permutation_map m_type Hperm)).
  rewrite (existsb_permutation (String.eqb "power") _ _ (Permutation_map m_type Hperm)).
  reflexivity.
Qed.

Lemma snapshot_counts_and_alerts_order_independent_witness :
  snd (updateResources [placed 1 "power" 0 0; placed 2 "airlock" 100 0])
  = snd (updateResources [placed 2 "airlock" 100 0; placed 1 "power" 0 0]).
Proof.
  apply snapshot_counts_and_alerts_order_independent. apply perm_swap.
Defined.

End ListOrder.

(** ** Layouts built by drops, removals and clears *)

Section BuiltLayouts.
Import Layout HabitatDesigner Lineage Built.

Lemma modulesOverlap_comm (a b : Rect) : modulesOverlap a b = modulesOverlap b a.
Proof.
  unfold modulesOverlap.
  destruct (r_x a + r_width a <=? r_x b), (r_x b + r_width b <=? r_x a),
           (r_y a + r_height a <=? r_y b), (r_y b + r_height b <=? r_y a);
    reflexivity.
Qed.

Lemma apart_sym a b : apart a b -> apart b a.
Proof.
  intros (ra & rb & Ha & Hb & H). exists rb, ra. repeat split; trivial.
  rewrite modulesOverlap_comm. exact H.
Qed.

Lemma pairwise_snoc {A} (R : A -> A -> Prop) l x :
  ForallOrdPairs R l -> Forall (fun a => R a x) l -> ForallOrdPairs R (l ++ [x]).
Proof.
  induction 1 as [|a l Ha _ IH]; simpl; intros Hx.
  - constructor; constructor.
  - inversion Hx as [|? ? Hax Hlx]; subst. constructor.
    + apply Forall_app. split; [exact Ha | constructor; [exact Hax | constructor]].
    + apply IH. exact Hlx.
Qed.

Lemma pairwise_remove {A} (R : A -> A -> Prop) front x back :
  ForallOrdPairs R (front ++ x :: back) -> ForallOrdPairs R (front ++ back).
Proof.
  induction front as [|a front IH]; simpl; intros H.
  - inversion H; assumption.
  - inversion H as [|? ? Ha Hrest]; subst. constructor.
    + apply Forall_app in Ha as [Hf Hb]. apply Forall_app. split; [exact Hf |].
      inversion Hb; assumption.
    + apply IH. exact Hrest.
Qed.

(** What a drop appends, when it appends. *)
Lemma addModule_appends moduleType x y this :
  (HabitatDesigner.modules (snd (addModule moduleType x y this)) = HabitatDesigner.modules this
   /\ nextModuleId (snd (addModule moduleType x y this)) = nextModuleId this)
  \/ (exists moduleInfo,
        getModuleType moduleType = Some moduleInfo
        /\ let position :=
             {| pos_x := Z.max 0 (x - width (Profile.dimensions moduleInfo) / 2);
                pos_y := Z.max 0 (y - height (Profile.dimensions moduleInfo) / 2) |} in
           inBounds (candidateRect moduleInfo position) (canvasRect this)
           /\ noneOverlaps (candidateRect moduleInfo position) (HabitatDesigner.modules this)
           /\ HabitatDesigner.modules (snd (addModule moduleType x y this))
              = HabitatDesigner.modules this
                ++ [ {| m_id := nextModuleId this; m_type := moduleType;
                        m_x := pos_x position; m_y := pos_y position;
                        m_dimensions := Some (Profile.dimensions moduleInfo) |} ]
           /\ nextModuleId (snd (addModule moduleType x y this)) = nextModuleId this + 1).
Proof.
  unfold addModule.
  destruct (getModuleType moduleType) as [moduleInfo|] eqn:Ht; [| left; split; reflexivity].
  unfold HabitatDesigner.bind, get, call.
  destruct (validateModulePlacement moduleType _ (HabitatDesigner.modules this) (canvasRect this))
    as [validation | e] eqn:V; [| left; split; reflexivity].
  destruct (valid validation) eqn:Hv; [| left; split; reflexivity].
  right. exists moduleInfo. split; [reflexivity |]. cbv zeta.
  unfold validateModulePlacement in V. rewrite Ht in V.
  match type of V with
  | (if ?b then _ else _) = _ => destruct b eqn:Hb
  end; [injection V as <-; discriminate |].
  destruct (overlapLoop_valid _ _ _ V Hv) as [Hclear _].
  split; [| split; [exact Hclear | split; reflexivity]].
  destruct (inBounds_dec (candidateRect moduleInfo
              {| pos_x := Z.max 0 (x - width (Profile.dimensions moduleInfo) / 2);
                 pos_y := Z.max 0 (y - height (Profile.dimensions moduleInfo) / 2) |})
              (canvasRect this)) as [Hin | Hout]; [exact Hin |].
  rewrite (bounds_test_outside _ _ _ Hout) in Hb. discriminate.
Qed.

Lemma operation_keeps_builtLayout op this :
  isRestore op = false -> builtLayout this -> builtLayout (after op this).
Proof.
  intros Hop (Hcounter & Hids & Hbuilt & Hapart).
  destruct (operation_keeps_counter_above op this Hop Hcounter) as [Hcounter' _].
  split; [exact Hcounter' |]. clear Hcounter'.
  unfold counterAboveCurrentIds, ids in *.
  destruct op as [moduleType dropX dropY measured | moduleId | confirmed | ? ?];
    [ | | | discriminate Hop ].
  - unfold after, perform, handleCanvasDrop.
    destruct (String.eqb moduleType ""); [repeat split; assumption |].
    cbn [HabitatDesigner.bind updateCanvasRect update snd].
    set (measuredThis := {| HabitatDesigner.modules := HabitatDesigner.modules this;
                             selectedModule := selectedModule this;
                             canvasRect := measured;
                             nextModuleId := nextModuleId this |}).
    change (HabitatDesigner.bind (updateCanvasRect measured)
              (fun _ => addModule moduleType dropX dropY) this)
      with (addModule moduleType dropX dropY measuredThis).
    destruct (addModule_appends moduleType dropX dropY measuredThis)
      as [[-> _] | (info & Ht & Hin & Hclear & -> & _)];
      [repeat split; assumption |].
    cbn [HabitatDesigner.modules measuredThis nextModuleId] in *.
    repeat split.
    + rewrite map_app. apply NoDup_app; trivial.
      * constructor; [intros [] | constructor].
      * intros id Hid [<- | []]. rewrite Forall_forall in Hcounter.
        apply Hcounter in Hid. simpl in Hid. lia.
    + apply Forall_app. split; [exact Hbuilt |]. constructor; [| constructor].
      exists info. cbn [m_type m_dimensions m_x m_y pos_x pos_y].
      split; [exact Ht | split; [reflexivity | split; lia]].
    + apply pairwise_snoc; [exact Hapart |].
      unfold noneOverlaps in Hclear. rewrite Forall_forall in *.
      intros m Hm. destruct (Hclear m Hm) as (t & Hmt & Hov).
      apply apart_sym. unfold apart, footprint. cbn [m_type m_x m_y]. rewrite Ht, Hmt.
      eexists _, _. repeat split. exact Hov.
  - unfold after, perform.
    destruct (removeModule_fields this moduleId) as (_ & _ & ->).
    destruct (findIndex (fun m => m_id m =? moduleId) (HabitatDesigner.modules this))
      as [index|] eqn:F; [| repeat split; assumption].
    destruct (findIndex_some _ _ _ F) as (front & m & back & E & _ & _ & ->).
    rewrite E in *. repeat split.
    + rewrite map_app in *. simpl in Hids. apply NoDup_remove_1 in Hids. exact Hids.
    + apply Forall_app in Hbuilt as [Hf Hb]. apply Forall_app. split; [exact Hf |].
      inversion Hb; assumption.
    + apply pairwise_remove in Hapart. exact Hapart.
  - unfold after, perform.
    destruct (clearHabitat_fields confirmed this) as (_ & _ & [-> | ->]).
    + repeat split; constructor.
    + repeat split; assumption.
Qed.

Lemma final_builtLayout ops : forall start,
  withoutRestore ops = true -> builtLayout start -> builtLayout (final ops start).
Proof.
  induction ops as [|op rest IH]; intros start Hops Hstart.
  - exact Hstart.
  - simpl in Hops. apply andb_true_iff in Hops as [Hop Hrest].
    apply negb_true_iff in Hop.
    change (final (op :: rest) start) with (final rest (after op start)).
    apply IH; [exact Hrest |]. apply operation_keeps_builtLayout; assumption.
Qed.

(** X12.  In every state reached from a new designer by drops, removals and
    clears, the ids of the placed modules are pairwise distinct, every module
    has a known type, carries the dimensions of its profile and lies at
    non-negative coordinates, and no two modules overlap. *)
Theorem built_layouts_have_distinct_ids_and_no_overlap canvas ops :
  withoutRestore ops = true ->
  NoDup (ids (final ops (constructor canvas)))
  /\ Forall asBuilt (HabitatDesigner.modules (final ops (constructor canvas)))
  /\ pairwiseApart (HabitatDesigner.modules (final ops (constructor canvas))).
Proof.
  intros Hops.
  assert (builtLayout (constructor canvas)) as H0
    by (repeat split; constructor).
  destruct (final_builtLayout ops (constructor canvas) Hops H0) as (_ & H1 & H2 & H3).
  repeat split; assumption.
Qed.

Lemma built_layouts_have_distinct_ids_and_no_overlap_witness :
  NoDup (ids (final [Add "power" 50 50 sampleCanvas; Add "airlock" 200 40 sampleCanvas;
                     Add "power" 60 60 sampleCanvas; Remove 1]
                (constructor sampleCanvas))).
Proof.
  apply (built_layouts_have_distinct_ids_and_no_overlap sampleCanvas). reflexivity.
Defined.



End BuiltLayouts.

(** ** Removal, selection and the Delete key *)

Section RemovalAndSelection.
Import Layout HabitatDesigner Lineage Selection.

Lemma filter_other_ids_id moduleId (l : list Module) :
  (forall m, In m l -> (m_id m =? moduleId) = false) ->
  filter (fun m => negb (m_id m =? moduleId)) l = l.
Proof.
  intros H. apply forallb_filter_id. apply forallb_forall.
  intros m Hm. rewrite (H m Hm). reflexivity.
Qed.

(** With distinct ids, removal by id is the removal of every module with
    that id. *)
Lemma removeModule_filter this moduleId :
  NoDup (ids this) ->
  HabitatDesigner.modules (snd (removeModule moduleId this))
  = filter (fun m => negb (m_id m =? moduleId)) (HabitatDesigner.modules this).
Proof.
  intros Hids. destruct (removeModule_fields this moduleId) as (_ & _ & ->).
  destruct (findIndex (fun m => m_id m =? moduleId) (HabitatDesigner.modules this))
    as [index|] eqn:F.
  - destruct (findIndex_some _ _ _ F) as (front & m & back & E & Pm & Hfront & ->).
    unfold ids in Hids. rewrite E in *. rewrite map_app in Hids. simpl in Hids.
    apply NoDup_remove_2 in Hids. apply Z.eqb_eq in Pm.
    rewrite filter_app. simpl. rewrite Pm, Z.eqb_refl. simpl.
    rewrite (filter_other_ids_id moduleId front) by exact Hfront.
    rewrite (filter_other_ids_id moduleId back); [reflexivity |].
    intros b Hb. apply Z.eqb_neq. intros Heq. apply Hids.
    apply in_or_app. right. rewrite Pm, <- Heq. apply in_map. exact Hb.
  - symmetry. apply filter_other_ids_id. apply (findIndex_none _ _ F).
Qed.

(** X14.  When the ids in the list are pairwise distinct, [removeModule]
    leaves exactly the modules with another id, in their order; afterwards
    no module has the removed id, and removing the same id again changes
    nothing. *)
Theorem removeModule_with_distinct_ids this moduleId :
  NoDup (ids this) ->
  let this' := snd (removeModule moduleId this) in
  HabitatDesigner.modules this'
  = filter (fun m => negb (m_id m =? moduleId)) (HabitatDesigner.modules this)
  /\ ~ In moduleId (ids this')
  /\ HabitatDesigner.modules (snd (removeModule moduleId this'))
     = HabitatDesigner.modules this'.
Proof.
  intros Hids. cbv zeta.
  assert (~ In moduleId (ids (snd (removeModule moduleId this)))) as Hgone.
  { unfold ids. rewrite (removeModule_filter this moduleId Hids).
    intros Hin. apply in_map_iff in Hin as (m & Hid & Hm).
    apply filter_In in Hm as [_ Hm]. rewrite Hid, Z.eqb_refl in Hm. discriminate. }
  split; [apply removeModule_filter; exact Hids | split; [exact Hgone |]].
  destruct (removeModule_fields (snd (removeModule moduleId this)) moduleId) as (_ & _ & ->).
  destruct (findIndex _ (HabitatDesigner.modules (snd (removeModule moduleId this))))
    as [index|] eqn:F; [| reflexivity].
  exfalso. destruct (findIndex_some _ _ _ F) as (front & m & back & E & Pm & _ & _).
  apply Hgone. unfold ids. rewrite E, map_app. apply in_or_app. right. left.
  apply Z.eqb_eq. exact Pm.
Qed.

Lemma removeModule_with_distinct_ids_witness :
  ~ In 1 (ids (snd (removeModule 1 onePowerModule))).
Proof.
  apply (removeModule_with_distinct_ids onePowerModule 1).
  constructor; [intros [] | constructor].
Defined.

(** X15.  The Delete key with a selected module that is in the list, when
    ids are pairwise distinct, removes that module and no other and clears
    the selection; without a selection it changes nothing; Escape only
    clears the selection. *)
Theorem delete_key_removes_the_selected_module this :
  (forall selected,
     selectedModule this = Some selected ->
     In selected (HabitatDesigner.modules this) ->
     NoDup (ids this) ->
     let this' := snd (handleKeyDown Delete this) in
     selectedModule this' = None
     /\ ~ In selected (HabitatDesigner.modules this')
     /\ (forall m, In m (HabitatDesigner.modules this) -> m <> selected ->
                   In m (HabitatDesigner.modules this'))
     /\ (forall m, In m (HabitatDesigner.modules this') ->
                   In m (HabitatDesigner.modules this)))
  /\ (selectedModule this = None -> handleKeyDown Delete this = (Normal tt, this))
  /\ handleKeyDown Escape this = (Normal tt, setSelectedModule None this).
Proof.
  split; [| split].
  - intros selected Hsel Hin Hids. cbv zeta.
    assert (snd (handleKeyDown Delete this) = snd (removeModule (m_id selected) this)) as ->
      by (unfold handleKeyDown, HabitatDesigner.bind, get; rewrite Hsel; reflexivity).
    pose proof (removeModule_filter this (m_id selected) Hids) as Hmods.
    split; [| rewrite Hmods; repeat split].
    + unfold removeModule, HabitatDesigner.bind, get. rewrite Hsel.
      destruct (findIndex (fun m => m_id m =? m_id selected) (HabitatDesigner.modules this))
        as [index|] eqn:F.
      * cbn. rewrite Z.eqb_refl. reflexivity.
      * exfalso. pose proof (findIndex_none _ _ F selected Hin) as Hp. simpl in Hp.
        rewrite Z.eqb_refl in Hp. discriminate.
    + intros Hm. apply filter_In in Hm as [_ Hm]. rewrite Z.eqb_refl in Hm. discriminate.
    + intros m Hm Hne. apply filter_In. split; [exact Hm |].
      apply negb_true_iff. apply Z.eqb_neq. intros Heq. apply Hne.
      unfold ids in Hids. clear Hmods Hsel.
      induction (HabitatDesigner.modules this) as [|a l IH]; [destruct Hm |].
      simpl in Hids. inversion Hids as [|? ? Hnotin Hrest]; subst.
      destruct Hm as [<- | Hm], Hin as [<- | Hin]; trivial.
      * exfalso. apply Hnotin. rewrite Heq. apply in_map. exact Hin.
      * exfalso. apply Hnotin. rewrite <- Heq. apply in_map. exact Hm.
      * apply IH; assumption.
    + intros m Hm. apply filter_In in Hm as [Hm _]. exact Hm.
  - intros Hsel. unfold handleKeyDown, HabitatDesigner.bind, get. rewrite Hsel. reflexivity.
  - unfold handleKeyDown, HabitatDesigner.bind, get.
    destruct (selectedModule this); reflexivity.
Qed.

Lemma delete_key_removes_the_selected_module_witness :
  HabitatDesigner.modules
    (snd (handleKeyDown Delete
            (setSelectedModule (Some (placed 1 "power" 0 0)) onePowerModule)))
  = [].
Proof.
  destruct (proj1 (delete_key_removes_the_selected_module
                     (setSelectedModule (Some (placed 1 "power" 0 0)) onePowerModule))
              (placed 1 "power" 0 0) eq_refl (or_introl eq_refl)
              (NoDup_cons 1 (fun H : In 1 [] => H) (NoDup_nil Z)))
    as (_ & Hgone & _ & Hsub).
  destruct (HabitatDesigner.modules
              (snd (handleKeyDown Delete
                      (setSelectedModule (Some (placed 1 "power" 0 0)) onePowerModule))))
    as [|m rest]; [reflexivity | exfalso].
  destruct (Hsub m (or_introl eq_refl)) as [<- | []].
  apply Hgone. left; reflexivity.
Defined.

End RemovalAndSelection.

(** ** Saving and restoring *)

Section SaveAndRestore.
Import Layout HabitatDesigner Lineage Storage.

(** Entries that all carry [dimensions] are appended one by one. *)
Lemma restoreEach_all entries : forall this,
  forallb hasDimensions entries = true ->
  restoreEach entries this
  = (Normal tt, setModules (HabitatDesigner.modules this ++ entries) this).
Proof.
  induction entries as [|e rest IH]; intros this H.
  - simpl. unfold ret, setModules. rewrite app_nil_r. destruct this; reflexivity.
  - simpl in H. apply andb_true_iff in H as [He Hrest].
    cbn [restoreEach]. unfold HabitatDesigner.bind at 1. unfold update at 1.
    unfold HabitatDesigner.bind at 1. unfold createModuleElement.
    unfold hasDimensions in He. destruct (m_dimensions e); [| discriminate].
    unfold ret at 1. rewrite (IH _ Hrest). unfold setModules.
    cbn [HabitatDesigner.modules selectedModule canvasRect nextModuleId].
    rewrite <- app_assoc. reflexivity.
Qed.

(** The first entry without [dimensions] is still pushed; then the loop
    throws. *)
Lemma restoreEach_stops front bad back : forall this,
  forallb hasDimensions front = true ->
  m_dimensions bad = None ->
  restoreEach (front ++ bad :: back) this
  = (Throw TypeError, setModules (HabitatDesigner.modules this ++ front ++ [bad]) this).
Proof.
  induction front as [|e rest IH]; intros this H Hbad.
  - cbn [app restoreEach]. unfold HabitatDesigner.bind at 1. unfold update at 1.
    unfold HabitatDesigner.bind at 1. unfold createModuleElement. rewrite Hbad.
    reflexivity.
  - simpl in H. apply andb_true_iff in H as [He Hrest].
    cbn [app restoreEach]. unfold HabitatDesigner.bind at 1. unfold update at 1.
    unfold HabitatDesigner.bind at 1. unfold createModuleElement.
    unfold hasDimensions in He. destruct (m_dimensions e); [| discriminate].
    unfold ret at 1. rewrite (IH _ Hrest Hbad). unfold setModules.
    cbn [HabitatDesigner.modules selectedModule canvasRect nextModuleId].
    rewrite <- app_assoc. reflexivity.
Qed.

(** [loadHabitat] on a document with a module array, step by step. *)
Lemma loadHabitat_array entries confirmed this :
  loadHabitat (Json (Array entries)) confirmed this
  = match restoreEach entries (snd (clearHabitat confirmed this)) with
    | (Normal _, restored) => (Normal HabitatDesignLoaded, snd (updateNextId restored))
    | (Throw _, partly) => (Normal ErrorLoadingHabitatDesign, partly)
    end.
Proof.
  unfold loadHabitat, tryCatch, parse, entriesOf.
  unfold HabitatDesigner.bind at 1. unfold ret at 1.
  unfold HabitatDesigner.bind at 1.
  destruct (clearHabitat_fields confirmed this) as (Hfst & _ & _).
  destruct (clearHabitat confirmed this) as [[[]|e] cleared]; [| discriminate Hfst].
  cbn [snd]. unfold HabitatDesigner.bind at 1. unfold ret at 1.
  unfold HabitatDesigner.bind at 1.
  destruct (restoreEach entries cleared) as [[[]|e] restored]; [| reflexivity].
  unfold HabitatDesigner.bind at 1.
  destruct (updateNextId_fields restored) as (Hu & _ & _).
  destruct (updateNextId restored) as [[[]|e] updated]; [reflexivity | discriminate Hu].
Qed.

Lemma maxOf_In others : forall first, In (maxOf first others) (first :: others).
Proof.
  unfold maxOf. induction others as [|id rest IH]; intros first; simpl.
  - left; reflexivity.
  - destruct (IH (Z.max first id)) as [H | H].
    + destruct (Z.max_spec first id) as [[_ E] | [_ E]]; rewrite E in *; auto.
    + right; right; exact H.
Qed.

(** After [updateNextId] on a list that is not empty the counter is one more
    than an id of the list. *)
Lemma updateNextId_reaches this :
  HabitatDesigner.modules this <> [] ->
  In (nextModuleId (snd (updateNextId this)) - 1) (ids this).
Proof.
  unfold updateNextId, HabitatDesigner.bind, get, ids.
  destruct (HabitatDesigner.modules this) as [|m rest]; [intros H; contradiction H; reflexivity |].
  intros _. cbn [map update setNextModuleId snd nextModuleId].
  replace (maxOf (m_id m) (map m_id rest) + 1 - 1) with (maxOf (m_id m) (map m_id rest)) by lia.
  apply maxOf_In.
Qed.

(** X16.  Saving a design whose modules all carry their dimensions and
    have safe integers as ids, and loading it afterwards, the clear being
    confirmed or the list being empty at that moment, succeeds and gives
    back exactly the saved module list, whatever was placed in between; the
    counter is then one more than the largest saved id (and unchanged if
    nothing was saved). *)
Theorem load_after_save_gives_back_the_list saved this confirmed :
  forallb hasDimensions (HabitatDesigner.modules saved) = true ->
  Forall safeInteger (ids saved) ->
  confirmed = true \/ HabitatDesigner.modules this = [] ->
  let result := loadHabitat (saveHabitat saved) confirmed this in
  fst result = Normal HabitatDesignLoaded
  /\ HabitatDesigner.modules (snd result) = HabitatDesigner.modules saved
  /\ counterAboveCurrentIds (snd result)
  /\ (HabitatDesigner.modules saved <> [] ->
      In (nextModuleId (snd result) - 1) (ids saved))
  /\ (HabitatDesigner.modules saved = [] ->
      nextModuleId (snd result) = nextModuleId this).
Proof.
  intros Hdims _ Hclear. cbv zeta. unfold saveHabitat. rewrite loadHabitat_array.
  rewrite (restoreEach_all _ _ Hdims).
  assert (HabitatDesigner.modules (snd (clearHabitat confirmed this)) = []) as Hempty.
  { unfold clearHabitat, HabitatDesigner.bind, get.
    destruct Hclear as [-> | Hnil]; [| rewrite Hnil; exact Hnil].
    destruct (List.length (HabitatDesigner.modules this) =? 0)%nat eqn:L; [| reflexivity].
    apply Nat.eqb_eq in L. cbn [ret snd].
    destruct (HabitatDesigner.modules this); [reflexivity | discriminate]. }
  destruct (clearHabitat_fields confirmed this) as (_ & Hnext & _).
  set (cleared := snd (clearHabitat confirmed this)) in *.
  rewrite Hempty. cbn [app fst snd].
  destruct (updateNextId_fields (setModules (HabitatDesigner.modules saved) cleared))
    as (_ & Hmods & Habove).
  split; [reflexivity | split; [exact Hmods | split; [exact Habove | split]]].
  - intros Hne.
    apply (updateNextId_reaches (setModules (HabitatDesigner.modules saved) cleared)).
    exact Hne.
  - intros Hnil. unfold updateNextId, HabitatDesigner.bind, get.
    cbn [setModules HabitatDesigner.modules]. rewrite Hnil. cbn. exact Hnext.
Qed.

Lemma load_after_save_gives_back_the_list_witness :
  HabitatDesigner.modules
    (snd (loadHabitat (saveHabitat onePowerModule) true (constructor sampleCanvas)))
  = HabitatDesigner.modules onePowerModule.
Proof.
  apply (load_after_save_gives_back_the_list onePowerModule (constructor sampleCanvas) true).
  - reflexivity.
  - constructor; [unfold safeInteger; simpl; lia | constructor].
  - left; reflexivity.
Defined.



(** X18.  A document whose module array holds an entry without
    [dimensions] is restored up to and including that entry and then given
    up with the error notice: the entries before it and the entry itself
    stay in the list (after whatever the clear left), the rest is dropped,
    and the counter is not brought up to date. *)
Theorem restore_stops_at_entry_without_dimensions front bad back confirmed this :
  forallb hasDimensions front = true ->
  m_dimensions bad = None ->
  let result := loadHabitat (Json (Array (front ++ bad :: back))) confirmed this in
  fst result = Normal ErrorLoadingHabitatDesign
  /\ HabitatDesigner.modules (snd result)
     = HabitatDesigner.modules (snd (clearHabitat confirmed this)) ++ front ++ [bad]
  /\ nextModuleId (snd result) = nextModuleId this.
Proof.
  intros Hfront Hbad. cbv zeta. rewrite loadHabitat_array.
  rewrite (restoreEach_stops _ _ _ _ Hfront Hbad). cbn [fst snd].
  destruct (clearHabitat_fields confirmed this) as (_ & Hnext & _).
  repeat split; trivial.
Qed.

Lemma restore_stops_at_entry_without_dimensions_witness :
  HabitatDesigner.modules
    (snd (loadHabitat
            (Json (Array [placed 7 "power" 0 0;
                          {| m_id := 9; m_type := "airlock"; m_x := 100; m_y := 0;
                             m_dimensions := None |};
                          placed 8 "power" 200 0]))
            true onePowerModule))
  = [placed 7 "power" 0 0;
     {| m_id := 9; m_type := "airlock"; m_x := 100; m_y := 0; m_dimensions := None |}]
  /\ nextModuleId
       (snd (loadHabitat
               (Json (Array [placed 7 "power" 0 0;
                             {| m_id := 9; m_type := "airlock"; m_x := 100; m_y := 0;
                                m_dimensions := None |};
                             placed 8 "power" 200 0]))
               true onePowerModule))
     = 2.
Proof.
  destruct (restore_stops_at_entry_without_dimensions
              [placed 7 "power" 0 0]
              {| m_id := 9; m_type := "airlock"; m_x := 100; m_y := 0; m_dimensions := None |}
              [placed 8 "power" 200 0] true onePowerModule eq_refl eq_refl)
    as (_ & Hmods & Hnext).
  split; [exact Hmods | exact Hnext].
Defined.

(** X19.  [loadAutoSave] never throws.  When the user accepts the restore
    it leaves the designer exactly as [loadHabitat] would on the same data
    and the same answer to the clear; when the user declines, or nothing was
    auto-saved, the designer is unchanged. *)
Theorem loadAutoSave_agrees_with_loadHabitat autoSavedData restore confirmed this :
  fst (loadAutoSave autoSavedData restore confirmed this) = Normal tt
  /\ snd (loadAutoSave autoSavedData true confirmed this)
     = snd (loadHabitat autoSavedData confirmed this)
  /\ snd (loadAutoSave autoSavedData false confirmed this) = this
  /\ snd (loadAutoSave NoItem restore confirmed this) = this.
Proof.
  assert (forall p,
            snd (loadAutoSave (Json p) true confirmed this)
            = snd (loadHabitat (Json p) confirmed this)
            /\ fst (loadAutoSave (Json p) true confirmed this) = Normal tt) as Hjson.
  { intros p.
    cbv beta iota delta [loadAutoSave loadHabitat tryCatch parse entriesOf
                         HabitatDesigner.bind ret throw].
    destruct (clearHabitat confirmed this) as [[[]|e] cleared]; [| split; reflexivity].
    destruct p as [| | entries]; try (split; reflexivity).
    cbv beta iota.
    destruct (restoreEach entries cleared) as [[[]|e] restored]; [| split; reflexivity].
    cbv beta iota.
    destruct (updateNextId_fields restored) as (Hu & _ & _).
    destruct (updateNextId restored) as [[[]|e] updated]; [split; reflexivity | discriminate Hu]. }
  destruct autoSavedData as [| | p].
  - repeat split; reflexivity.
  - destruct restore; repeat split; reflexivity.
  - destruct (Hjson p) as [Hs Hf].
    split; [destruct restore; [exact Hf | reflexivity] |].
    split; [exact Hs | split; reflexivity].
Qed.

End SaveAndRestore.

(** ** Dragging a placed module *)

Section DragAndRelease.
Import Layout HabitatDesigner Lineage Dragging.

Lemma moveModule_keeps array : forall index newX newY,
  map m_id (moveModule array index newX newY) = map m_id array
  /\ map m_type (moveModule array index newX newY) = map m_type array
  /\ map m_dimensions (moveModule array index newX newY) = map m_dimensions array.
Proof.
  induction array as [|m rest IH]; intros [|index] newX newY; simpl; auto.
  destruct (IH index newX newY) as (-> & -> & ->). auto.
Qed.

Lemma moveModule_at array : forall index newX newY module,
  nth_error array index = Some module ->
  nth_error (moveModule array index newX newY) index
  = Some {| m_id := m_id module; m_type := m_type module; m_x := newX; m_y := newY;
            m_dimensions := m_dimensions module |}.
Proof.
  induction array as [|m rest IH]; intros [|index] newX newY module H; simpl in *;
    try discriminate.
  - injection H as <-. reflexivity.
  - apply IH. exact H.
Qed.

Lemma moveModule_elsewhere array : forall index newX newY other,
  other <> index ->
  nth_error (moveModule array index newX newY) other = nth_error array other.
Proof.
  induction array as [|m rest IH]; intros [|index] newX newY [|other] H; simpl; trivial.
  - contradiction H; reflexivity.
  - apply IH. intros ->. apply H. reflexivity.
Qed.

(** The release validates and reports, and moves nothing. *)
Lemma handleMouseUp_designer page :
  designer (snd (handleMouseUp page)) = designer page.
Proof.
  unfold handleMouseUp.
  destruct (dragState page) as [|index ox oy]; [reflexivity |].
  destruct (nth_error (HabitatDesigner.modules (designer page)) index) as [module|];
    [| reflexivity].
  destruct (validateModulePlacement _ _ _ _); reflexivity.
Qed.

(** X20.  A drag moves the pressed module by the way the pointer went, to
    any coordinates (negative ones and ones outside the canvas included),
    and the release keeps it there whatever the validation says: nothing is
    moved back.  Ids, types, dimensions, the order of the list, every other
    module and the counter are unchanged. *)
Theorem drag_moves_the_module_whatever_the_verdict
    index fromX fromY toX toY measured page module :
  nth_error (HabitatDesigner.modules (designer page)) index = Some module ->
  let released := snd (drag index fromX fromY toX toY measured page) in
  let moved := HabitatDesigner.modules (designer released) in
  nth_error moved index
  = Some {| m_id := m_id module; m_type := m_type module;
            m_x := m_x module + (toX - fromX); m_y := m_y module + (toY - fromY);
            m_dimensions := m_dimensions module |}
  /\ (forall other, other <> index ->
        nth_error moved other = nth_error (HabitatDesigner.modules (designer page)) other)
  /\ map m_id moved = map m_id (HabitatDesigner.modules (designer page))
  /\ map m_type moved = map m_type (HabitatDesigner.modules (designer page))
  /\ nextModuleId (designer released) = nextModuleId (designer page).
Proof.
  intros Hnth. cbv zeta. unfold drag. rewrite handleMouseUp_designer.
  unfold handleModuleMouseDown. cbn [Z.eqb negb]. rewrite Hnth.
  unfold handleMouseMove. cbn [dragState designer].
  cbn [Selection.selectModule Selection.deselectModule HabitatDesigner.bind update
       updateCanvasRect setSelectedModule setModules snd HabitatDesigner.modules
       nextModuleId].
  replace (toX - (fromX - m_x module)) with (m_x module + (toX - fromX)) by lia.
  replace (toY - (fromY - m_y module)) with (m_y module + (toY - fromY)) by lia.
  destruct (moveModule_keeps (HabitatDesigner.modules (designer page)) index
              (m_x module + (toX - fromX)) (m_y module + (toY - fromY))) as (Hid & Hty & _).
  split; [apply moveModule_at; exact Hnth |].
  split; [intros other Hother; apply moveModule_elsewhere; exact Hother |].
  split; [exact Hid | split; [exact Hty | reflexivity]].
Qed.

Lemma drag_moves_the_module_whatever_the_verdict_witness :
  nth_error
    (HabitatDesigner.modules
       (designer (snd (drag 1 210 10 60 10 sampleCanvas
                         {| designer :=
                              {| HabitatDesigner.modules :=
                                   [placed 1 "power" 0 0; placed 2 "airlock" 200 0];
                                 selectedModule := None;
                                 canvasRect := sampleCanvas;
                                 nextModuleId := 3 |};
                            dragState := Released |}))))
    1
  = Some {| m_id := 2; m_type := "airlock"; m_x := 200 + (60 - 210); m_y := 0 + (10 - 10);
            m_dimensions := Some {| width := 80; height := 80 |} |}.
Proof.
  apply (drag_moves_the_module_whatever_the_verdict 1 210 10 60 10 sampleCanvas
           {| designer :=
                {| HabitatDesigner.modules :=
                     [placed 1 "power" 0 0; placed 2 "airlock" 200 0];
                   selectedModule := None;
                   canvasRect := sampleCanvas;
                   nextModuleId := 3 |};
              dragState := Released |}
           (placed 2 "airlock" 200 0)).
  reflexivity.
Defined.

(** X21.  In a layout whose modules have known types and do not overlap, a
    module that lies inside the canvas and is released where it is (a press
    and release without a move) passes the validation and no warning is
    shown: the module under the pointer is left out of the modules it is
    checked against. *)
Theorem release_in_place_is_accepted this index offset_x offset_y module footprintOfModule :
  nth_error (HabitatDesigner.modules this) index = Some module ->
  pairwiseApart (HabitatDesigner.modules this) ->
  footprint module = Some footprintOfModule ->
  inBounds footprintOfModule (canvasRect this) ->
  handleMouseUp {| designer := this; dragState := Dragging index offset_x offset_y |}
  = (Normal None, {| designer := this; dragState := Released |}).
Proof.
  intros Hnth Hapart Hfoot Hin.
  unfold handleMouseUp. cbn [dragState designer]. rewrite Hnth.
  unfold footprint in Hfoot.
  destruct (getModuleType (m_type module)) as [t|] eqn:Ht; [| discriminate].
  injection Hfoot as <-.
  rewrite (validate_inside _ t) by assumption.
  rewrite overlapLoop_clear; [reflexivity |].
  unfold noneOverlaps. apply Forall_forall. intros other Hother.
  apply filter_In in Hother as [Hother Hid]. apply negb_true_iff, Z.eqb_neq in Hid.
  assert (apart module other) as (ra & rb & Ha & Hb & Hov).
  { destruct (ForallOrdPairs_In Hapart module other (nth_error_In _ _ Hnth) Hother)
      as [-> | [H | H]]; [contradiction Hid; reflexivity | exact H | apply apart_sym; exact H]. }
  unfold footprint in Ha, Hb. rewrite Ht in Ha. injection Ha as <-.
  destruct (getModuleType (m_type other)) as [t'|]; [| discriminate].
  injection Hb as <-. exists t'. split; [reflexivity | exact Hov].
Qed.

Lemma release_in_place_is_accepted_witness :
  handleMouseUp
    {| designer :=
         {| HabitatDesigner.modules := [placed 1 "power" 0 0; placed 2 "airlock" 200 0];
            selectedModule := None;
            canvasRect := sampleCanvas;
            nextModuleId := 3 |};
       dragState := Dragging 1 10 10 |}
  = (Normal None,
     {| designer :=
          {| HabitatDesigner.modules := [placed 1 "power" 0 0; placed 2 "airlock" 200 0];
             selectedModule := None;
             canvasRect := sampleCanvas;
             nextModuleId := 3 |};
        dragState := Released |}).
Proof.
  apply (release_in_place_is_accepted
           {| HabitatDesigner.modules := [placed 1 "power" 0 0; placed 2 "airlock" 200 0];
              selectedModule := None;
              canvasRect := sampleCanvas;
              nextModuleId := 3 |}
           1 10 10 (placed 2 "airlock" 200 0)
           {| r_x := 200; r_y := 0; r_width := 80; r_height := 80 |});
    [reflexivity | | reflexivity | ].
  - constructor; [| constructor; constructor].
    constructor; [| constructor].
    eexists _, _. repeat split.
  - unfold inBounds; simpl; lia.
Defined.

(** X22.  When the validation at the release throws (an existing module of
    unknown type), the drag state is not reset: the page is left as it was,
    still dragging, so the next pointer move goes on moving the module. *)
Theorem thrown_release_keeps_dragging page e :
  fst (handleMouseUp page) = Throw e ->
  snd (handleMouseUp page) = page
  /\ isDragging (dragState page) = true
  /\ forall clientX clientY,
       handleMouseMove clientX clientY (snd (handleMouseUp page))
       = handleMouseMove clientX clientY page.
Proof.
  unfold handleMouseUp.
  destruct (dragState page) as [|index ox oy] eqn:D; [discriminate |].
  destruct (nth_error (HabitatDesigner.modules (designer page)) index) as [module|];
    [| discriminate].
  destruct (validateModulePlacement _ _ _ _); [discriminate |].
  intros _. repeat split.
Qed.

Lemma thrown_release_keeps_dragging_witness :
  isDragging
    (dragState
       {| designer :=
            {| HabitatDesigner.modules := [placed 2 "power" 0 0; medicalBay];
               selectedModule := None;
               canvasRect := sampleCanvas;
               nextModuleId := 3 |};
          dragState := Dragging 0 10 10 |})
  = true.
Proof.
  apply (thrown_release_keeps_dragging
           {| designer :=
                {| HabitatDesigner.modules := [placed 2 "power" 0 0; medicalBay];
                   selectedModule := None;
                   canvasRect := sampleCanvas;
                   nextModuleId := 3 |};
              dragState := Dragging 0 10 10 |}
           TypeError).
  reflexivity.
Defined.

End DragAndRelease.

(** ** Release among modules that share an id *)

Section SharedIds.
Import Layout HabitatDesigner Lineage Dragging.

Lemma filter_same_id (l : list Module) id :
  (forall m, In m l -> m_id m = id) ->
  filter (fun m => negb (m_id m =? id)) l = [].
Proof.
  induction l as [|a l IH]; intros H; [reflexivity |].
  simpl. rewrite (H a (or_introl eq_refl)), Z.eqb_refl. simpl.
  apply IH. intros m Hm. apply H. right. exact Hm.
Qed.

(** X23.  The release leaves out of the check every module that has the id
    of the dragged one, not only the dragged one itself: where all placed
    modules share one id (as after a restore that doubled the list), a
    module of known type released anywhere inside the canvas raises no
    warning, even on top of another module. *)
Theorem release_ignores_modules_with_the_same_id
    this index offset_x offset_y module footprintOfModule :
  nth_error (HabitatDesigner.modules this) index = Some module ->
  (forall other, In other (HabitatDesigner.modules this) -> m_id other = m_id module) ->
  footprint module = Some footprintOfModule ->
  inBounds footprintOfModule (canvasRect this) ->
  handleMouseUp {| designer := this; dragState := Dragging index offset_x offset_y |}
  = (Normal None, {| designer := this; dragState := Released |}).
Proof.
  intros Hnth Hsame Hfoot Hin.
  unfold handleMouseUp. cbn [dragState designer]. rewrite Hnth.
  unfold footprint in Hfoot.
  destruct (getModuleType (m_type module)) as [t|] eqn:Ht; [| discriminate].
  injection Hfoot as <-.
  rewrite (validate_inside _ t) by assumption.
  assert (filter (fun m => negb (m_id m =? m_id module)) (HabitatDesigner.modules this) = [])
    as ->.
  { apply filter_same_id. exact Hsame. }
  reflexivity.
Qed.

Lemma release_ignores_modules_with_the_same_id_witness :
  handleMouseUp
    {| designer :=
         {| HabitatDesigner.modules := [placed 1 "power" 0 0; placed 1 "power" 30 30];
            selectedModule := None;
            canvasRect := sampleCanvas;
            nextModuleId := 2 |};
       dragState := Dragging 1 10 10 |}
  = (Normal None,
     {| designer :=
          {| HabitatDesigner.modules := [placed 1 "power" 0 0; placed 1 "power" 30 30];
             selectedModule := None;
             canvasRect := sampleCanvas;
             nextModuleId := 2 |};
        dragState := Released |}).
Proof.
  apply (release_ignores_modules_with_the_same_id
           {| HabitatDesigner.modules := [placed 1 "power" 0 0; placed 1 "power" 30 30];
              selectedModule := None;
              canvasRect := sampleCanvas;
              nextModuleId := 2 |}
           1 10 10 (placed 1 "power" 30 30)
           {| r_x := 30; r_y := 30; r_width := 100; r_height := 100 |});
    [reflexivity | | reflexivity | ].
  - intros other [<- | [<- | []]]; reflexivity.
  - unfold inBounds; simpl; lia.
Defined.

End SharedIds.

(** ** Recommendations *)

Section RecommendationList.
Import Recommendations.

Lemma insert_permutation r sorted : Permutation (insert r sorted) (r :: sorted).
Proof.
  induction sorted as [|s rest IH]; simpl.
  - apply Permutation_refl.
  - destruct (priority r <=? priority s).
    + apply Permutation_refl.
    + apply perm_trans with (s :: r :: rest); [apply perm_skip; exact IH | apply perm_swap].
Qed.

Lemma insert_sorted r sorted :
  StronglySorted byPriority sorted -> StronglySorted byPriority (insert r sorted).
Proof.
  induction 1 as [|s rest Hrest IH Hs]; simpl.
  - constructor; constructor.
  - destruct (priority r <=? priority s) eqn:E.
    + apply Z.leb_le in E. constructor; [constructor; assumption |].
      constructor; [exact E |].
      eapply Forall_impl; [| exact Hs]. unfold byPriority. intros; lia.
    + apply Z.leb_gt in E. constructor; [exact IH |].
      refine (Permutation_Forall (Permutation_sym (insert_permutation r rest)) _).
      constructor; [unfold byPriority; lia | exact Hs].
Qed.

Lemma sortByPriority_permutation l : Permutation (sortByPriority l) l.
Proof.
  induction l as [|r rest IH]; simpl; [constructor |].
  apply perm_trans with (r :: sortByPriority rest);
    [apply insert_permutation | apply perm_skip; exact IH].
Qed.

Lemma sortByPriority_sorted l : StronglySorted byPriority (sortByPriority l).
Proof.
  induction l as [|r rest IH]; simpl; [constructor | apply insert_sorted; exact IH].
Qed.

(** What is pushed: one entry per category at most, priorities from 1 up,
    and priority 1 exactly for the critical ones. *)
Lemma pushed_facts resources scores :
  NoDup (map category (pushed resources scores))
  /\ Forall (fun r => 1 <= priority r /\ (kind r = Critical <-> priority r = 1))
            (pushed resources scores).
Proof.
  unfold pushed.
  destruct (PrimFloat.ltb (power scores) 70), (powerBalance resources <? 0),
           (PrimFloat.ltb (oxygen scores) 70), (oxygenBalance resources <? 0),
           (PrimFloat.ltb (space scores) 50),
           (PrimFloat.ltb 0.9 (totalArea resources / maxSpace)),
           (PrimFloat.ltb (crew scores) 70),
           (crewCapacity resources =? 0), (crewCapacity resources <? 4);
    cbn [app map category];
    (split;
     [ repeat (constructor; [simpl; intuition discriminate |]); constructor
     | repeat (constructor;
               [cbn [priority kind]; split; [lia | split; intros; (reflexivity || discriminate || lia)] |]);
       constructor ]).
Qed.

(** X24.  The recommendations come out in ascending priority and are
    exactly the entries pushed; there is at most one per category (so at
    most four), and every critical entry stands before every entry that is
    not critical. *)
Theorem recommendations_sorted_one_per_category resources scores :
  StronglySorted byPriority (generateRecommendations resources scores)
  /\ Permutation (generateRecommendations resources scores) (pushed resources scores)
  /\ NoDup (map category (generateRecommendations resources scores))
  /\ (List.length (generateRecommendations resources scores) <= 4)%nat
  /\ (forall before r behind,
        generateRecommendations resources scores = before ++ r :: behind ->
        kind r = Critical ->
        Forall (fun earlier => kind earlier = Critical) before).
Proof.
  unfold generateRecommendations.
  pose proof (sortByPriority_sorted (pushed resources scores)) as Hsorted.
  pose proof (sortByPriority_permutation (pushed resources scores)) as Hperm.
  destruct (pushed_facts resources scores) as [Hcats Hprio].
  assert (NoDup (map category (sortByPriority (pushed resources scores)))) as Hnodup.
  { apply (Permutation_NoDup (l := map category (pushed resources scores))); [| exact Hcats].
    apply Permutation_map. apply Permutation_sym. exact Hperm. }
  split; [exact Hsorted | split; [exact Hperm | split; [exact Hnodup | split]]].
  - rewrite <- (length_map category).
    assert (forall l : list Category, NoDup l -> (List.length l <= 4)%nat) as Hfour.
    { intros l Hl.
      apply (NoDup_incl_length (l' := [Power; Oxygen; Space; Crew])) in Hl; [exact Hl |].
      intros c _. destruct c; simpl; tauto. }
    apply Hfour. exact Hnodup.
  - intros before r behind E Hr.
    assert (Forall (fun x => 1 <= priority x /\ (kind x = Critical <-> priority x = 1))
                   (sortByPriority (pushed resources scores))) as Hall
      by exact (Permutation_Forall (Permutation_sym Hperm) Hprio).
    rewrite E in Hsorted, Hall.
    apply Forall_app in Hall as [Hbefore Hr'].
    inversion Hr' as [|? ? [_ Hrcrit] _]; subst.
    apply Hrcrit in Hr.
    apply Forall_forall. intros earlier Hearlier.
    rewrite Forall_forall in Hbefore. destruct (Hbefore earlier Hearlier) as [Hge Hcrit].
    apply Hcrit.
    assert (byPriority earlier r) as Hle.
    { clear - Hsorted Hearlier. induction before as [|b before IH]; [destruct Hearlier |].
      simpl in Hsorted. inversion Hsorted as [|? ? Hrest Hb]; subst.
      destruct Hearlier as [<- | Hearlier].
      - rewrite Forall_forall in Hb. apply Hb. apply in_or_app. right. left. reflexivity.
      - apply IH; assumption. }
    unfold byPriority in Hle. lia.
Qed.

(** The pushes are the entries of the four categories, in this order. *)
Lemma pushed_parts resources scores :
  pushed resources scores
  = part Power resources scores ++ part Oxygen resources scores
    ++ part Space resources scores ++ part Crew resources scores.
Proof.
  unfold pushed, part.
  destruct (PrimFloat.ltb (power scores) 70), (powerBalance resources <? 0),
           (PrimFloat.ltb (oxygen scores) 70), (oxygenBalance resources <? 0),
           (PrimFloat.ltb (space scores) 50),
           (PrimFloat.ltb 0.9 (totalArea resources / maxSpace)),
           (PrimFloat.ltb (crew scores) 70),
           (crewCapacity resources =? 0), (crewCapacity resources <? 4);
    reflexivity.
Qed.

Lemma part_category c resources scores r :
  In r (part c resources scores) -> category r = c.
Proof.
  destruct c; unfold part;
    repeat match goal with
           | |- context [if ?b then _ else _] => destruct b
           end;
    simpl; intros H; repeat (destruct H as [<- | H]; [reflexivity |]); destruct H.
Qed.

(** Looking for an entry of a category in the result is looking into that
    category's part. *)
Lemma listed_in_part c resources scores (Q : Recommendation -> Prop) :
  (exists r, In r (generateRecommendations resources scores) /\ category r = c /\ Q r)
  <-> (exists r, In r (part c resources scores) /\ Q r).
Proof.
  unfold generateRecommendations.
  pose proof (sortByPriority_permutation (pushed resources scores)) as Hperm.
  split.
  - intros (r & Hin & Hc & HQ). exists r. split; [| exact HQ].
    apply (Permutation_in _ Hperm) in Hin. rewrite pushed_parts in Hin.
    repeat (apply in_app_or in Hin as [Hin | Hin]);
      rewrite <- Hc, (part_category _ _ _ _ Hin); exact Hin.
  - intros (r & Hin & HQ). exists r.
    split; [| split; [apply (part_category _ _ _ _ Hin) | exact HQ]].
    apply (Permutation_in _ (Permutation_sym Hperm)). rewrite pushed_parts.
    destruct c; repeat rewrite in_app_iff; tauto.
Qed.

(** X25.  Which entry a category gets.  A power (oxygen) entry appears
    exactly when the power (oxygen) score is below 70 and is critical
    exactly when the balance is negative; a space entry appears exactly when
    the space score is below 50; a crew entry appears exactly when the crew
    score is below 70 and the crew capacity is below 4, so a low crew score
    with a capacity of 4 or more yields no entry. *)
Theorem recommendation_per_category resources scores :
  let listed c :=
    exists r, In r (generateRecommendations resources scores) /\ category r = c in
  let critical c :=
    exists r, In r (generateRecommendations resources scores)
              /\ category r = c /\ kind r = Critical in
  (listed Power <-> PrimFloat.ltb (power scores) 70 = true)
  /\ (critical Power <-> PrimFloat.ltb (power scores) 70 = true /\ powerBalance resources < 0)
  /\ (listed Oxygen <-> PrimFloat.ltb (oxygen scores) 70 = true)
  /\ (critical Oxygen
      <-> PrimFloat.ltb (oxygen scores) 70 = true /\ oxygenBalance resources < 0)
  /\ (listed Space <-> PrimFloat.ltb (space scores) 50 = true)
  /\ (listed Crew
      <-> PrimFloat.ltb (crew scores) 70 = true /\ crewCapacity resources < 4)
  /\ (critical Crew
      <-> PrimFloat.ltb (crew scores) 70 = true /\ crewCapacity resources = 0).
Proof.
  cbv zeta.
  assert (forall c,
            (exists r, In r (generateRecommendations resources scores) /\ category r = c)
            <-> (exists r, In r (part c resources scores) /\ True)) as Hlisted.
  { intros c. rewrite <- listed_in_part.
    split; intros (r & Hin & Hc); exists r; [tauto | split; [exact Hin | apply Hc]]. }
  repeat rewrite Hlisted. repeat rewrite listed_in_part. clear Hlisted. unfold part.
  split; [| split; [| split; [| split; [| split; [| split]]]]].
  - destruct (PrimFloat.ltb (power scores) 70).
    + split; [reflexivity | intros _; eexists; split; [left; reflexivity | exact I]].
    + split; [intros (r & [] & _) | discriminate].
  - destruct (PrimFloat.ltb (power scores) 70).
    + destruct (Z.ltb_spec (powerBalance resources) 0).
      * split; [intros _; split; [reflexivity | assumption]
               | intros _; eexists; split; [left; reflexivity | reflexivity]].
      * split; [intros (r & [<- | []] & Hr); discriminate Hr | intros [_ ?]; lia].
    + split; [intros (r & [] & _) | intros [? _]; discriminate].
  - destruct (PrimFloat.ltb (oxygen scores) 70).
    + split; [reflexivity | intros _; eexists; split; [left; reflexivity | exact I]].
    + split; [intros (r & [] & _) | discriminate].
  - destruct (PrimFloat.ltb (oxygen scores) 70).
    + destruct (Z.ltb_spec (oxygenBalance resources) 0).
      * split; [intros _; split; [reflexivity | assumption]
               | intros _; eexists; split; [left; reflexivity | reflexivity]].
      * split; [intros (r & [<- | []] & Hr); discriminate Hr | intros [_ ?]; lia].
    + split; [intros (r & [] & _) | intros [? _]; discriminate].
  - destruct (PrimFloat.ltb (space scores) 50).
    + split; [reflexivity | intros _; eexists; split; [left; reflexivity | exact I]].
    + split; [intros (r & [] & _) | discriminate].
  - destruct (PrimFloat.ltb (crew scores) 70).
    + destruct (Z.eqb_spec (crewCapacity resources) 0).
      * split; [intros _; split; [reflexivity | lia]
               | intros _; eexists; split; [left; reflexivity | exact I]].
      * destruct (Z.ltb_spec (crewCapacity resources) 4).
        -- split; [intros _; split; [reflexivity | assumption]
                  | intros _; eexists; split; [left; reflexivity | exact I]].
        -- split; [intros (r & [] & _) | intros [_ ?]; lia].
    + split; [intros (r & [] & _) | intros [? _]; discriminate].
  - destruct (PrimFloat.ltb (crew scores) 70).
    + destruct (Z.eqb_spec (crewCapacity resources) 0).
      * split; [intros _; split; [reflexivity | assumption]
               | intros _; eexists; split; [left; reflexivity | reflexivity]].
      * destruct (Z.ltb_spec (crewCapacity resources) 4).
        -- split; [intros (r & [<- | []] & Hr); discriminate Hr | intros [_ ?]; contradiction].
        -- split; [intros (r & [] & _) | intros [_ ?]; contradiction].
    + split; [intros (r & [] & _) | intros [? _]; discriminate].
Qed.

End RecommendationList.

(** ** The table of module types *)

Section Table.
Import Layout HabitatDesigner Lineage Built.

Lemma In_property key v :
  In (key, v) moduleTypes -> property key moduleTypes = Some v.
Proof.
  unfold moduleTypes. simpl.
  intros H.
  repeat (destruct H as [H | H]; [injection H as <- <-; reflexivity |]).
  destruct H.
Qed.

(** X26.  Every type [getAllModuleTypes] lists is found by [getModuleType]
    and by [getModuleInfo], with the profile the table pairs with it, and
    that profile has positive, even sides (so the halving in [addModule] is
    exact) and no negative figure.  A name that is neither listed nor
    inherited by every object is found by neither lookup. *)
Theorem table_lookup_agrees_with_keys moduleId :
  (In moduleId getAllModuleTypes ->
   exists t, getModuleType moduleId = Some t /\ getModuleInfo moduleId = Some t
             /\ In (moduleId, t) moduleTypes /\ soundProfile t)
  /\ (~ In moduleId getAllModuleTypes -> plainName moduleId ->
      getModuleType moduleId = None /\ getModuleInfo moduleId = None).
Proof.
  split.
  - intros H. unfold getAllModuleTypes in H. apply in_map_iff in H as ([k t] & <- & Hin).
    cbn [fst]. exists t. unfold getModuleType, getModuleInfo.
    rewrite (In_property _ _ Hin).
    split; [reflexivity | split; [reflexivity | split; [exact Hin |]]].
    unfold moduleTypes in Hin. simpl in Hin.
    repeat (destruct Hin as [Hin | Hin];
            [injection Hin as <- <-; unfold soundProfile; simpl; repeat split; lia |]).
    destruct Hin.
  - intros Hnot _. unfold getModuleInfo, getModuleType.
    destruct (property moduleId moduleTypes) as [t|] eqn:E; [| split; reflexivity].
    exfalso. apply Hnot. apply property_In in E. unfold getAllModuleTypes.
    apply in_map_iff. exists (moduleId, t). split; [reflexivity | exact E].
Qed.

Lemma table_lookup_agrees_with_keys_witness :
  (exists t, getModuleType "greenhouse" = Some t /\ getModuleInfo "greenhouse" = Some t
             /\ In ("greenhouse", t) moduleTypes /\ soundProfile t)
  /\ getModuleType "medical-bay" = None.
Proof.
  split.
  - apply (proj1 (table_lookup_agrees_with_keys "greenhouse")).
    unfold getAllModuleTypes. simpl. tauto.
  - apply (proj2 (table_lookup_agrees_with_keys "medical-bay")).
    + unfold getAllModuleTypes. simpl. intuition discriminate.
    + unfold plainName, inheritedNames. simpl. intuition discriminate.
Defined.

Lemma asBuilt_known modules :
  Forall asBuilt modules -> forallb known modules = true.
Proof.
  induction 1 as [|m rest (t & Ht & _) _ IH]; simpl; [reflexivity |].
  unfold known at 1. rewrite Ht. exact IH.
Qed.

(** Over existing modules of known types the validation returns. *)
Lemma validate_returns moduleType position existingModules canvasSize :
  forallb known existingModules = true ->
  exists v, validateModulePlacement moduleType position existingModules canvasSize = Normal v.
Proof.
  intros Hknown. unfold validateModulePlacement.
  destruct (getModuleType moduleType) as [module|]; [| eauto].
  match goal with |- context [if ?b then _ else _] => destruct b end; [eauto |].
  apply overlapLoop_returns. exact Hknown.
Qed.

(** X27.  As long as a layout is only built by drops, removals and clears,
    a drop does not throw: whatever the payload (a name inherited by every
    object apart), known type or not, the handler returns normally. *)
Theorem drops_never_throw_without_restore canvas ops moduleType dropX dropY measured :
  withoutRestore ops = true ->
  plainName moduleType ->
  fst (perform (Add moduleType dropX dropY measured) (final ops (constructor canvas)))
  = Normal tt.
Proof.
  intros Hops _.
  assert (builtLayout (constructor canvas)) as H0 by (repeat split; constructor).
  destruct (final_builtLayout ops (constructor canvas) Hops H0) as (_ & _ & Hbuilt & _).
  apply asBuilt_known in Hbuilt.
  set (this := final ops (constructor canvas)) in *.
  unfold perform, handleCanvasDrop.
  destruct (String.eqb moduleType ""); [reflexivity |].
  cbv beta iota delta [HabitatDesigner.bind updateCanvasRect update addModule get call ret].
  destruct (getModuleType moduleType) as [moduleInfo|]; [| reflexivity].
  cbv beta iota. cbn [HabitatDesigner.modules canvasRect].
  destruct (validate_returns moduleType
              {| pos_x := Z.max 0 (dropX - width (Profile.dimensions moduleInfo) / 2);
                 pos_y := Z.max 0 (dropY - height (Profile.dimensions moduleInfo) / 2) |}
              (HabitatDesigner.modules this) measured Hbuilt) as [v ->].
  destruct (valid v); reflexivity.
Qed.

Lemma drops_never_throw_without_restore_witness :
  fst (perform (Add "airlock" 300 60 sampleCanvas)
         (final [Add "power" 50 50 sampleCanvas; Remove 1; Add "greenhouse" 80 70 sampleCanvas]
                (constructor sampleCanvas)))
  = Normal tt.
Proof.
  apply drops_never_throw_without_restore; [reflexivity |].
  unfold plainName, inheritedNames. simpl. intuition discriminate.
Defined.

End Table.
